(** * LocalEdit: the local message editor plugin

    A shallow embedding of [src/plugins/template/src/index.ts]: the override
    store [messageEdits], the render pre-hook, the context-menu hook and its
    wrapper, the two menu actions with the dialog confirmation, the two debug
    functions, and the lifecycle entry points [onLoad] and [onUnload].

    JavaScript values live in a heap of cells, so that aliasing and in-place
    mutation (the spread copies of the render hook, [children.push] on the
    menu's own array) are what the source does.  The module-level object
    [messageEdits] is a plain object: a finite map from property keys to
    strings for its own properties, read through [Object.prototype] for the
    names it does not define itself. *)

From Stdlib Require Import NArith List Ascii String.
From stdpp Require Import base option list gmap strings pretty.

Open Scope string_scope.

(** ** Strings *)

(** A JavaScript string is a sequence of UTF-16 code units. *)
Abbreviation jsstring := (list N).

Definition str (s : string) : jsstring :=
  map N_of_ascii (list_ascii_of_string s).

(** ECMAScript WhiteSpace and LineTerminator code units, the set stripped by
    [String.prototype.trim]. *)
Definition is_white (c : N) : bool :=
  bool_decide (c ∈ [9; 10; 11; 12; 13; 32; 160; 5760; 8232; 8233; 8239; 8287;
                     12288; 65279]%N)
  || ((8192 <=? c)%N && (c <=? 8202)%N).

Fixpoint trimStart (s : jsstring) : jsstring :=
  match s with
  | c :: s' => if is_white c then trimStart s' else s
  | [] => []
  end.

Definition trimEnd (s : jsstring) : jsstring := rev (trimStart (rev s)).

Definition trim (s : jsstring) : jsstring := trimEnd (trimStart s).

(** ** Values and the heap *)

Abbreviation loc := nat.

(** Numbers are carried as their IEEE-754 binary64 bit pattern; the plugin
    only tests them for truthiness and strict equality.  [VProtoMember name]
    is what a plain object inherits from [Object.prototype] under [name]:
    a built-in function, or the prototype object itself for [__proto__]. *)
Inductive jsval :=
  | VUndef
  | VNull
  | VBool (b : bool)
  | VNum (bits : N)
  | VStr (s : jsstring)
  | VRef (l : loc)
  | VProtoMember (name : jsstring).

#[global] Instance jsval_eq_dec : EqDecision jsval.
Proof. solve_decision. Defined.

(** The function values the plugin creates, with the variables they close
    over. *)
Inductive closure :=
  | RenderHook
  | MenuHook
  | MenuWrapper (menuComponent : jsval)
  | EditAction (message : jsval)
  | OnConfirm (message : jsval)
  | RemoveAction (message : jsval)
  | RefreshCallback
  | ShowLocalEdits
  | ClearAllEdits.

(** A heap cell holds the own enumerable data properties of an object, the
    elements of an array, or a plugin function. *)
Inductive cell :=
  | CObj (fields : gmap string jsval)
  | CArr (elems : list jsval)
  | CFun (c : closure).

Abbreviation heap_t := (list cell).

Definition num_exponent (bits : N) : N := N.land (N.shiftr bits 52) 2047.
Definition num_fraction (bits : N) : N := N.land bits (2 ^ 52 - 1).
Definition num_is_nan (bits : N) : bool :=
  (num_exponent bits =? 2047)%N && negb (num_fraction bits =? 0)%N.
Definition num_is_zero (bits : N) : bool :=
  (N.land bits (2 ^ 63 - 1) =? 0)%N.

(** ToBoolean *)
Definition truthy (v : jsval) : bool :=
  match v with
  | VUndef | VNull => false
  | VBool b => b
  | VNum n => negb (num_is_zero n || num_is_nan n)
  | VStr s => negb (bool_decide (s = []))
  | VRef _ | VProtoMember _ => true
  end.

Definition nullish (v : jsval) : bool :=
  match v with
  | VUndef | VNull => true
  | _ => false
  end.

(** [a === b] *)
Definition strict_eq (a b : jsval) : bool :=
  match a, b with
  | VUndef, VUndef | VNull, VNull => true
  | VBool x, VBool y => bool_decide (x = y)
  | VNum x, VNum y =>
      negb (num_is_nan x || num_is_nan y)
      && (bool_decide (x = y) || (num_is_zero x && num_is_zero y))
  | VStr x, VStr y => bool_decide (x = y)
  | VRef x, VRef y => bool_decide (x = y)
  | VProtoMember x, VProtoMember y => bool_decide (x = y)
  | _, _ => false
  end.

(** [a ?? b], with [b] already evaluated (the plugin's right operands are
    pure host lookups). *)
Definition coalesce (a b : jsval) : jsval := if nullish a then b else a.

(** Reading property [k] of a value that is neither [undefined] nor [null].
    The names the plugin reads are never array indices or built-in members,
    so arrays, functions and primitives answer [undefined]; the one name it
    reads that a built-in has is [prototype], which the constructor
    [Object] answers with [Object.prototype]. *)
Definition get_prop (h : heap_t) (v : jsval) (k : string) : jsval :=
  match v with
  | VRef l =>
      match h !! l with
      | Some (CObj f) => default VUndef (f !! k)
      | _ => VUndef
      end
  | VProtoMember name =>
      if bool_decide (name = str "constructor") && bool_decide (k = "prototype")
      then VProtoMember (str "__proto__")
      else VUndef
  | _ => VUndef
  end.

(** [v?.k] *)
Definition opt_prop (h : heap_t) (v : jsval) (k : string) : jsval :=
  if nullish v then VUndef else get_prop h v k.

(** [Array.isArray(v)] *)
Definition isArray (h : heap_t) (v : jsval) : bool :=
  match v with
  | VRef l => match h !! l with Some (CArr _) => true | _ => false end
  | _ => false
  end.

(** Element [i] of an array value; a hole or an index out of range reads
    [undefined]. *)
Definition get_index (h : heap_t) (v : jsval) (i : nat) : jsval :=
  match v with
  | VRef l =>
      match h !! l with
      | Some (CArr a) => default VUndef (a !! i)
      | _ => VUndef
      end
  | _ => VUndef
  end.

(** [a[i] = v] on an array: an index past the end extends the array. *)
Definition arr_set (a : list jsval) (i : nat) (v : jsval) : list jsval :=
  if decide (i < length a) then <[i := v]> a
  else a ++ replicate (i - length a) VUndef ++ [v].

(** The own enumerable properties copied by an object spread [{...v}]. *)
Definition index_props (a : list jsval) : gmap string jsval :=
  list_to_map (imap (λ i x, (pretty i, x)) a).

Definition spread (h : heap_t) (v : jsval) : gmap string jsval :=
  match v with
  | VRef l =>
      match h !! l with
      | Some (CObj f) => f
      | Some (CArr a) => index_props a
      | _ => ∅
      end
  | VStr s => index_props ((λ c, VStr [c]) <$> s)
  | _ => ∅
  end.

(** ** The override store *)

(** The store is the object literal [{}] of line 8: what it does not hold
    itself it inherits from [Object.prototype], whose properties are these
    (ECMAScript 20.1.3 and B.2.2). *)
Definition object_prototype_names : list jsstring :=
  str <$> ["constructor"; "hasOwnProperty"; "isPrototypeOf";
           "propertyIsEnumerable"; "toLocaleString"; "toString"; "valueOf";
           "__defineGetter__"; "__defineSetter__"; "__lookupGetter__";
           "__lookupSetter__"; "__proto__"].

(** [messageEdits[k]] as a JavaScript value: the store's own property, or
    else the inherited member, or else [undefined]. *)
Definition edit_lookup (m : gmap jsstring jsstring) (k : jsstring) : jsval :=
  match m !! k with
  | Some v => VStr v
  | None => if bool_decide (k ∈ object_prototype_names) then VProtoMember k
            else VUndef
  end.

(** [messageEdits[k] = v] with a string [v].  The inherited [__proto__] is
    an accessor whose setter ignores a string, so the assignment creates no
    property of that name (an own one, had the store any, would take the
    value); every other name becomes or stays an own property. *)
Definition assign_edit (m : gmap jsstring jsstring) (k v : jsstring)
    : gmap jsstring jsstring :=
  if bool_decide (k = str "__proto__" ∧ m !! k = None) then m
  else <[k := v]> m.

(** [Object.keys(messageEdits).forEach(key => delete messageEdits[key])] *)
Definition delete_all_keys (m : gmap jsstring jsstring) : gmap jsstring jsstring :=
  foldl (λ acc key, delete key acc) m (map_to_list m).*1.

(** ** The program state *)

Inductive exn :=
  | TypeError
  | HostError (v : jsval).

Inductive log_entry :=
  | LogInfo (msg : jsstring)
  | LogError (msg : jsstring) (err : exn)
  | ConsoleLog (snapshot : gmap jsstring jsstring).

(** A hook installed through the patcher's [before]; its undo handle is its
    position in the list of installed patches. *)
Record patch := Patch {
  patch_name : jsstring;
  patch_target : jsval;
  patch_callback : jsval }.

Abbreviation handle := nat.

Record state := State {
  heap : heap_t;
  messageEdits : gmap jsstring jsstring;
  unpatchRender : option handle;
  unpatchContextMenu : option handle;
  globals : gmap string jsval;
  patches : list patch;
  undone : list handle;
  dialogs : list jsval;
  logs : list log_entry }.

Definition set_heap (h : heap_t) (s : state) : state :=
  State h (messageEdits s) (unpatchRender s) (unpatchContextMenu s)
        (globals s) (patches s) (undone s) (dialogs s) (logs s).
Definition set_messageEdits (m : gmap jsstring jsstring) (s : state) : state :=
  State (heap s) m (unpatchRender s) (unpatchContextMenu s)
        (globals s) (patches s) (undone s) (dialogs s) (logs s).
Definition set_unpatchRender (u : option handle) (s : state) : state :=
  State (heap s) (messageEdits s) u (unpatchContextMenu s)
        (globals s) (patches s) (undone s) (dialogs s) (logs s).
Definition set_unpatchContextMenu (u : option handle) (s : state) : state :=
  State (heap s) (messageEdits s) (unpatchRender s) u
        (globals s) (patches s) (undone s) (dialogs s) (logs s).
Definition set_globals (g : gmap string jsval) (s : state) : state :=
  State (heap s) (messageEdits s) (unpatchRender s) (unpatchContextMenu s)
        g (patches s) (undone s) (dialogs s) (logs s).
Definition set_patches (p : list patch) (s : state) : state :=
  State (heap s) (messageEdits s) (unpatchRender s) (unpatchContextMenu s)
        (globals s) p (undone s) (dialogs s) (logs s).
Definition set_undone (u : list handle) (s : state) : state :=
  State (heap s) (messageEdits s) (unpatchRender s) (unpatchContextMenu s)
        (globals s) (patches s) u (dialogs s) (logs s).
Definition set_dialogs (d : list jsval) (s : state) : state :=
  State (heap s) (messageEdits s) (unpatchRender s) (unpatchContextMenu s)
        (globals s) (patches s) (undone s) d (logs s).
Definition set_logs (l : list log_entry) (s : state) : state :=
  State (heap s) (messageEdits s) (unpatchRender s) (unpatchContextMenu s)
        (globals s) (patches s) (undone s) (dialogs s) l.

(** The state of a freshly loaded module over a host heap. *)
Definition initial (h : heap_t) (g : gmap string jsval) : state :=
  State h ∅ None None g [] [] [] [].

(** ** The monad of plugin code *)

(** A computation returns, throws, or leaves the embedding (a property key
    computed from an object or a number, a write to a value that is not a
    plain object). *)
Inductive outcome (A : Type) :=
  | Ok (a : A) (s : state)
  | Throw (e : exn) (s : state)
  | Unmodelled.
Arguments Ok {A} a s.
Arguments Throw {A} e s.
Arguments Unmodelled {A}.

Definition M (A : Type) : Type := state → outcome A.

#[global] Instance M_ret : MRet M := λ A a s, Ok a s.
#[global] Instance M_bind : MBind M := λ A B f m s,
  match m s with
  | Ok a s' => f a s'
  | Throw e s' => Throw e s'
  | Unmodelled => Unmodelled
  end.

Definition throw {A} (e : exn) : M A := λ s, Throw e s.
Definition unmodelled {A} : M A := λ _, Unmodelled.
Definition gets {A} (f : state → A) : M A := λ s, Ok (f s) s.
Definition modify (f : state → state) : M unit := λ s, Ok () (f s).

(** [try { body } catch (error) { handler }] *)
Definition try_catch {A} (body : M A) (handler : exn → M A) : M A := λ s,
  match body s with
  | Throw e s' => handler e s'
  | r => r
  end.

(** A new object, array or function. *)
Definition alloc (c : cell) : M jsval := λ s,
  Ok (VRef (length (heap s))) (set_heap (heap s ++ [c]) s).

(** [v.k]: a TypeError on [undefined] and [null]. *)
Definition member (v : jsval) (k : string) : M jsval :=
  if nullish v then throw TypeError
  else gets (λ s, get_prop (heap s) v k).

(** [v?.k] *)
Definition opt_member (v : jsval) (k : string) : M jsval :=
  gets (λ s, opt_prop (heap s) v k).

(** [v.k = x] *)
Definition set_member (v : jsval) (k : string) (x : jsval) : M unit :=
  if nullish v then throw TypeError
  else match v with
       | VRef l => λ s,
           match heap s !! l with
           | Some (CObj f) => Ok () (set_heap (<[l := CObj (<[k := x]> f)]> (heap s)) s)
           | _ => Unmodelled
           end
       | _ => unmodelled
       end.

(** [arr.push(x)] on an array value. *)
Definition push (arr : jsval) (x : jsval) : M unit :=
  match arr with
  | VRef l => λ s,
      match heap s !! l with
      | Some (CArr a) => Ok () (set_heap (<[l := CArr (a ++ [x])]> (heap s)) s)
      | _ => Unmodelled
      end
  | _ => unmodelled
  end.

(** [arr[i] = x] on an array value. *)
Definition set_index (arr : jsval) (i : nat) (x : jsval) : M unit :=
  match arr with
  | VRef l => λ s,
      match heap s !! l with
      | Some (CArr a) => Ok () (set_heap (<[l := CArr (arr_set a i x)]> (heap s)) s)
      | _ => Unmodelled
      end
  | _ => unmodelled
  end.

(** ToPropertyKey and the string conversion of a template literal, for the
    primitives whose conversion is a constant or the identity. *)
Definition property_key (v : jsval) : option jsstring :=
  match v with
  | VStr s => Some s
  | VUndef => Some (str "undefined")
  | VNull => Some (str "null")
  | VBool true => Some (str "true")
  | VBool false => Some (str "false")
  | VNum _ | VRef _ | VProtoMember _ => None
  end.

Definition to_key (v : jsval) : M jsstring :=
  match property_key v with
  | Some k => mret k
  | None => unmodelled
  end.

Definition log_info (msg : jsstring) : M unit :=
  modify (λ s, set_logs (logs s ++ [LogInfo msg]) s).
Definition log_error (msg : jsstring) (e : exn) : M unit :=
  modify (λ s, set_logs (logs s ++ [LogError msg e]) s).

(** ** The host *)

Inductive host_result :=
  | HostReturn (v : jsval) (h : heap_t)
  | HostThrow (e : exn) (h : heap_t).

(** What [ReactNative.InteractionManager?.runAfterInteractions?.(cb)] does:
    a missing member short-circuits, the call returns, or something on the
    way throws. *)
Inductive refresh_behaviour :=
  | RefreshAbsent
  | RefreshScheduled
  | RefreshThrows (e : exn).

(** The collaborators imported from the host: the module lookups, the
    patcher's argument check, the application of a host function (the
    original menu builder), and the interaction manager. *)
Record Host := {
  findByProps : list jsstring → jsval;
  findByName : jsstring → jsval;
  before_rejects : jsstring → jsval → option exn;
  apply_host : jsval → list jsval → heap_t → host_result;
  refresh : refresh_behaviour }.

(** ** The plugin *)

Section Plugin.
Variable host : Host.

(** Calling a host function value. *)
Definition call_host (f : jsval) (args : list jsval) : M jsval := λ s,
  match apply_host host f args (heap s) with
  | HostReturn v h => Ok v (set_heap h s)
  | HostThrow e h => Throw e (set_heap h s)
  end.

(** The patcher's [before(name, target, callback)]. *)
Definition before (name : jsstring) (target callback : jsval) : M handle :=
  match before_rejects host name target with
  | Some e => throw e
  | None => λ s,
      Ok (length (patches s))
         (set_patches (patches s ++ [Patch name target callback]) s)
  end.

(** Invoking an undo handle returned by [before]: the call is recorded and
    returns. *)
Definition invoke_undo (u : handle) : M unit :=
  modify (λ s, set_undone (undone s ++ [u]) s).

(** The callback patched before [MessageContent.prototype.render]
    (lines 23-36). *)
Definition render_hook (this : jsval) : M unit :=
  props ← member this "props";
  message ← opt_member props "message";
  id ← opt_member message "id";
  test ← (if truthy id
          then key ← to_key id;
               gets (λ s, edit_lookup (messageEdits s) key)
          else mret id);
  if truthy test then
    props ← member this "props";
    fields ← gets (λ s, spread (heap s) props);
    messageFields ← gets (λ s, spread (heap s) message);
    id ← member message "id";
    key ← to_key id;
    content ← gets (λ s, edit_lookup (messageEdits s) key);
    newMessage ← alloc (CObj (<["content" := content]> messageFields));
    newProps ← alloc (CObj (<["message" := newMessage]> fields));
    set_member this "props" newProps
  else mret ().

(** [onConfirm] of the input dialog (lines 66-84). *)
Definition on_confirm (message : jsval) (newContent : jsstring) : M unit :=
  (if bool_decide (trim newContent = [])
   then id ← member message "id";
        key ← to_key id;
        modify (λ s, set_messageEdits (delete key (messageEdits s)) s);;
        id ← member message "id";
        shown ← to_key id;
        log_info (str "Removed local edit for message " ++ shown)
   else id ← member message "id";
        key ← to_key id;
        modify (λ s, set_messageEdits
                       (assign_edit (messageEdits s) key newContent) s);;
        id ← member message "id";
        shown ← to_key id;
        log_info (str "Locally edited message " ++ shown));;
  try_catch
    (match refresh host with
     | RefreshAbsent => mret ()
     | RefreshScheduled => alloc (CFun RefreshCallback);; mret ()
     | RefreshThrows e => throw e
     end)
    (λ _, log_info (str "Edit saved, may need to scroll to see changes")).

(** [action] of the edit button (lines 58-86). *)
Definition edit_action (message : jsval) : M unit :=
  id ← member message "id";
  key ← to_key id;
  stored ← gets (λ s, edit_lookup (messageEdits s) key);
  currentEdit ← (if truthy stored then mret stored
                 else member message "content");
  onConfirm ← alloc (CFun (OnConfirm message));
  config ← alloc (CObj (list_to_map
    [("title", VStr (str "Edit Message Locally"));
     ("placeholder", VStr (str "Enter new message content..."));
     ("initialValue", currentEdit);
     ("confirmText", VStr (str "Save"));
     ("onConfirm", onConfirm)]));
  modify (λ s, set_dialogs (dialogs s ++ [config]) s).

(** [action] of the remove button (lines 95-98). *)
Definition remove_action (message : jsval) : M unit :=
  id ← member message "id";
  key ← to_key id;
  modify (λ s, set_messageEdits (delete key (messageEdits s)) s);;
  id ← member message "id";
  shown ← to_key id;
  log_info (str "Removed local edit for message " ++ shown).

(** The object literal [editButton] (lines 54-87). *)
Definition editButton_fields (label : jsstring) (action : jsval)
    : gmap string jsval :=
  list_to_map
    [("id", VStr (str "edit-locally"));
     ("label", VStr label);
     ("icon", findByName host (str "PencilIcon"));
     ("action", action)].

Definition make_editButton (message : jsval) : M jsval :=
  id ← member message "id";
  key ← to_key id;
  stored ← gets (λ s, edit_lookup (messageEdits s) key);
  let label := if truthy stored then str "Edit Local Copy"
               else str "Edit Locally" in
  action ← alloc (CFun (EditAction message));
  alloc (CObj (editButton_fields label action)).

(** [removeButton] (lines 90-99): an object, or [null]. *)
Definition removeButton_fields (action : jsval) : gmap string jsval :=
  list_to_map
    [("id", VStr (str "remove-local-edit"));
     ("label", VStr (str "Remove Local Edit"));
     ("icon", findByName host (str "TrashIcon"));
     ("destructive", VBool true);
     ("action", action)].

Definition make_removeButton (message : jsval) : M jsval :=
  id ← member message "id";
  key ← to_key id;
  stored ← gets (λ s, edit_lookup (messageEdits s) key);
  if truthy stored then
    action ← alloc (CFun (RemoveAction message));
    alloc (CObj (removeButton_fields action))
  else mret VNull.

(** Adding the buttons to the menu (lines 102-113). *)
Definition append_buttons (originalMenu editButton removeButton : jsval)
    : M unit :=
  menuProps ← opt_member originalMenu "props";
  existing ← opt_member menuProps "children";
  if truthy existing then
    menuProps ← member originalMenu "props";
    existing ← member menuProps "children";
    isArr ← gets (λ s, isArray (heap s) existing);
    children ← (if isArr : bool then mret existing
                else alloc (CArr [existing]));
    push children editButton;;
    (if truthy removeButton then push children removeButton
     else mret ());;
    menuProps ← member originalMenu "props";
    set_member menuProps "children" children
  else mret ().

(** The wrapper put in place of the menu builder (lines 48-117). *)
Definition menu_wrapper (menuComponent props : jsval) : M jsval :=
  originalMenu ← call_host menuComponent [props];
  message ← opt_member props "message";
  guard ← (if truthy message
           then author ← member message "author";
                authorId ← opt_member author "id";
                currentUserId ← member props "currentUserId";
                mret (negb (strict_eq authorId currentUserId))
           else mret false);
  (if guard : bool then
     editButton ← make_editButton message;
     removeButton ← make_removeButton message;
     append_buttons originalMenu editButton removeButton
   else mret ());;
  mret originalMenu.

(** The callback patched before [openContextMenuLazy] (lines 44-118). *)
Definition menu_hook (args : jsval) : M unit :=
  event ← gets (λ s, get_index (heap s) args 0);
  menuComponent ← gets (λ s, get_index (heap s) args 1);
  wrapper ← alloc (CFun (MenuWrapper menuComponent));
  set_index args 1 wrapper.

(** [global.showLocalEdits] (lines 122-127). *)
Definition showLocalEdits : M (gmap jsstring jsstring) :=
  editCount ← gets (λ s, size (messageEdits s));
  log_info (str "Currently have " ++ str (pretty editCount)
            ++ str " local message edits");;
  modify (λ s, set_logs (logs s ++ [ConsoleLog (messageEdits s)]) s);;
  gets messageEdits.

(** [global.clearAllEdits] (lines 129-132). *)
Definition clearAllEdits : M unit :=
  modify (λ s, set_messageEdits (delete_all_keys (messageEdits s)) s);;
  log_info (str "Cleared all local message edits").

(** The body of the [try] block of [onLoad] (lines 18-135). *)
Definition setup : M unit :=
  byProps ← mret (findByProps host [str "MessageContent"]);
  exported ← opt_member byProps "MessageContent";
  let MessageContent :=
    coalesce exported (findByName host (str "MessageContent")) in
  (if truthy MessageContent then
     prototype ← member MessageContent "prototype";
     callback ← alloc (CFun RenderHook);
     undo ← before (str "render") prototype callback;
     modify (set_unpatchRender (Some undo))
   else mret ());;
  found ← mret (findByProps host
                  [str "openContextMenuLazy"; str "closeContextMenu"]);
  getByProps ← member found "getByProps";
  let ContextMenuActions :=
    coalesce getByProps (findByProps host [str "openContextMenuLazy"]) in
  (if truthy ContextMenuActions then
     callback ← alloc (CFun MenuHook);
     undo ← before (str "openContextMenuLazy") ContextMenuActions callback;
     modify (set_unpatchContextMenu (Some undo))
   else mret ());;
  show ← alloc (CFun ShowLocalEdits);
  modify (λ s, set_globals (<["showLocalEdits" := show]> (globals s)) s);;
  clear ← alloc (CFun ClearAllEdits);
  modify (λ s, set_globals (<["clearAllEdits" := clear]> (globals s)) s);;
  log_info (str "Local message editor loaded successfully!");;
  log_info (str "Long-press any message to see edit options").

(** [onLoad] (lines 14-140). *)
Definition onLoad : M unit :=
  log_info (str "Local Message Editor plugin loaded");;
  try_catch setup
    (λ error, log_error (str "Failed to setup message editor:") error).

(** [onUnload] (lines 142-164). *)
Definition onUnload : M unit :=
  log_info (str "Local Message Editor plugin unloaded");;
  undo ← gets unpatchRender;
  match undo with
  | Some u => invoke_undo u;; modify (set_unpatchRender None)
  | None => mret ()
  end;;
  undo ← gets unpatchContextMenu;
  match undo with
  | Some u => invoke_undo u;; modify (set_unpatchContextMenu None)
  | None => mret ()
  end;;
  modify (λ s, set_globals (delete "showLocalEdits" (globals s)) s);;
  modify (λ s, set_globals (delete "clearAllEdits" (globals s)) s);;
  modify (λ s, set_messageEdits (delete_all_keys (messageEdits s)) s);;
  log_info (str "Message edits cleared and patches removed").

End Plugin.

(** ** Statement vocabulary *)

(** The key under which the plugin files the overrides of [message]:
    [message.id] as a property key. *)
Definition message_key (h : heap_t) (message : jsval) : option jsstring :=
  if nullish message then None else property_key (get_prop h message "id").

(** A text that [trim] empties. *)
Definition blank (t : jsstring) : Prop := trim t = [].

(** Every stored override has a non-empty trimmed form, and none is an own
    property named [__proto__]. *)
Definition store_ok (m : gmap jsstring jsstring) : Prop :=
  (∀ k v, m !! k = Some v → ¬ blank v) ∧ m !! str "__proto__" = None.

(** A computation lands in [s'] when it returns or throws there. *)
Definition lands {A} (m : M A) (s s' : state) : Prop :=
  (∃ a, m s = Ok a s') ∨ (∃ e, m s = Throw e s').

(** ** Reachable states *)

(** One step of the running plugin: the host calls an entry point or one of
    the functions the plugin handed out, with any arguments, or the host
    changes its own objects. *)
Inductive step (host : Host) : state → state → Prop :=
  | step_onLoad s s' : lands (onLoad host) s s' → step host s s'
  | step_onUnload s s' : lands onUnload s s' → step host s s'
  | step_render_hook this s s' : lands (render_hook this) s s' → step host s s'
  | step_menu_hook args s s' : lands (menu_hook args) s s' → step host s s'
  | step_menu_wrapper menuComponent props s s' :
      lands (menu_wrapper host menuComponent props) s s' → step host s s'
  | step_edit_action message s s' :
      lands (edit_action message) s s' → step host s s'
  | step_on_confirm message newContent s s' :
      lands (on_confirm host message newContent) s s' → step host s s'
  | step_remove_action message s s' :
      lands (remove_action message) s s' → step host s s'
  | step_showLocalEdits s s' : lands showLocalEdits s s' → step host s s'
  | step_clearAllEdits s s' : lands clearAllEdits s s' → step host s s'
  | step_host h s : step host s (set_heap h s).

(** The states the plugin can be in, starting with an empty store. *)
Definition reachable (host : Host) (s : state) : Prop :=
  ∃ h g, rtc (step host) (initial h g) s.

(** A computation that keeps the store free of blank overrides. *)
Definition keeps {A} (m : M A) : Prop :=
  ∀ s s', lands m s s' → store_ok (messageEdits s) → store_ok (messageEdits s').

(** What the render hook reads from the component [this]:
    [this.props?.message] and [message?.id]. *)
Definition render_message (h : heap_t) (this : jsval) : jsval :=
  opt_prop h (get_prop h this "props") "message".
Definition render_id (h : heap_t) (this : jsval) : jsval :=
  opt_prop h (render_message h this) "id".

(** The content the component is about to render:
    [this.props.message.content]. *)
Definition render_content (h : heap_t) (this : jsval) : jsval :=
  get_prop h (render_message h this) "content".

(** The heap the render hook leaves when it substitutes: a copy of the
    message with the override as content, a copy of the props pointing to
    it, and the component [lt] pointing to the new props. *)
Definition render_heap (lt : loc) (tf pf mf : gmap string jsval)
    (v : jsstring) (h : heap_t) : heap_t :=
  <[lt := CObj (<["props" := VRef (S (List.length h))]> tf)]>
    (h ++ [CObj (<["content" := VStr v]> mf);
           CObj (<["message" := VRef (List.length h)]> pf)])%list.

(** What the menu wrapper reads: [props?.message], the author id
    [message.author?.id], the viewer id [props.currentUserId], and the
    children [originalMenu?.props?.children] of a menu. *)
Definition menu_message (h : heap_t) (props : jsval) : jsval :=
  opt_prop h props "message".
Definition author_id (h : heap_t) (message : jsval) : jsval :=
  opt_prop h (get_prop h message "author") "id".
Definition viewer_id (h : heap_t) (props : jsval) : jsval :=
  get_prop h props "currentUserId".
Definition menu_children (h : heap_t) (menu : jsval) : jsval :=
  opt_prop h (opt_prop h menu "props") "children".

(** [v] is an object of the heap. *)
Definition is_object (h : heap_t) (v : jsval) : bool :=
  match v with
  | VRef l => match h !! l with Some (CObj _) => true | _ => false end
  | _ => false
  end.

Definition is_array_cell (c : cell) : bool :=
  match c with CArr _ => true | _ => false end.

(** A children value as a list: the elements of an array, or the single
    descriptor. *)
Definition child_list (h : heap_t) (children : jsval) : list jsval :=
  match children with
  | VRef l => match h !! l with Some (CArr a) => a | _ => [children] end
  | _ => [children]
  end.

(** The labels of a list of action descriptors. *)
Definition labels (h : heap_t) (actions : list jsval) : list jsval :=
  (λ a, get_prop h a "label") <$> actions.

(** ** A sample host and sample states *)

(** A host that finds nothing to patch; its one function is the menu
    builder at location 7, which returns the menu object at location 4.
    Calling anything else is a TypeError. *)
Definition demo_host : Host :=
  {| findByProps := λ _, VUndef;
     findByName := λ _, VUndef;
     before_rejects := λ _ _, None;
     apply_host := λ f _ h,
       if bool_decide (f = VRef 7) then HostReturn (VRef 4) h
       else HostThrow TypeError h;
     refresh := RefreshAbsent |}.

(** A component (0) whose props (1) carry message [m1] (2) written by user
    [u2] (3), while the viewer is [u1]; a menu (4) whose props (5) hold an
    array of children (6); the host's menu builder (7). *)
Definition demo_heap : heap_t :=
  [ CObj (list_to_map [("props", VRef 1)]);
    CObj (list_to_map [("message", VRef 2); ("currentUserId", VStr (str "u1"))]);
    CObj (list_to_map [("id", VStr (str "m1")); ("content", VStr (str "original"));
                       ("author", VRef 3)]);
    CObj (list_to_map [("id", VStr (str "u2"))]);
    CObj (list_to_map [("props", VRef 5)]);
    CObj (list_to_map [("children", VRef 6)]);
    CArr [VStr (str "Copy Text")];
    CObj ∅ ].

Definition demo_state : state := initial demo_heap ∅.

(** The same, with an override filed for [m1]. *)
Definition demo_edited : state :=
  set_messageEdits {[ str "m1" := str "Hello" ]} demo_state.

(** The state after the dialog of message [m1] was confirmed with
    [Hello]. *)
Definition demo_confirmed : state :=
  set_logs [LogInfo (str "Locally edited message m1")] demo_edited.

(** The sample heap with [id] as the id of the message, and the freshly
    loaded module over it. *)
Definition named_heap (id : jsstring) : heap_t :=
  <[2 := CObj (list_to_map [("id", VStr id); ("content", VStr (str "original"));
                            ("author", VRef 3)])]> demo_heap.

Definition named_state (id : jsstring) : state := initial (named_heap id) ∅.

(** The state after the dialog of a message whose id is [__proto__] was
    confirmed with [Hello]: the log has the line, the store has nothing. *)
Definition proto_confirmed : state :=
  set_logs [LogInfo (str "Locally edited message __proto__")]
    (named_state (str "__proto__")).

(** The viewer looks at a message of their own, with an override filed. *)
Definition self_heap : heap_t :=
  <[1 := CObj (list_to_map [("message", VRef 2);
                            ("currentUserId", VStr (str "u2"))])]> demo_heap.

Definition self_edited : state :=
  set_messageEdits {[ str "m1" := str "Hello" ]} (initial self_heap ∅).

(** A menu (4) whose props (5) have no children. *)
Definition bare_heap : heap_t := <[5 := CObj ∅]> demo_heap.

Definition bare_state : state := initial bare_heap ∅.

(** A host whose [MessageContent] module (0) exports the component class
    (1) with its prototype (2), and that has no context-menu module. *)
Definition nomenu_heap : heap_t :=
  [ CObj (list_to_map [("MessageContent", VRef 1)]);
    CObj (list_to_map [("prototype", VRef 2)]);
    CObj ∅ ].

Definition nomenu_host : Host :=
  {| findByProps := λ names,
       if bool_decide (names = [str "MessageContent"]) then VRef 0 else VUndef;
     findByName := λ _, VUndef;
     before_rejects := λ _ _, None;
     apply_host := λ _ _ h, HostReturn VUndef h;
     refresh := RefreshAbsent |}.

(** The state [onLoad] leaves on that host: the render hook (3) is
    installed, the failure is logged, and no global is registered. *)
Definition nomenu_loaded : state :=
  State (nomenu_heap ++ [CFun RenderHook]) ∅ (Some 0) None ∅
        [Patch (str "render") (VRef 2) (VRef 3)] [] []
        [LogInfo (str "Local Message Editor plugin loaded");
         LogError (str "Failed to setup message editor:") TypeError].

(** A host that has both modules: the context-menu module is object 3. *)
Definition full_heap : heap_t := (nomenu_heap ++ [CObj ∅])%list.

Definition full_host : Host :=
  {| findByProps := λ names,
       if bool_decide (names = [str "MessageContent"]) then VRef 0 else VRef 3;
     findByName := λ _, VUndef;
     before_rejects := λ _ _, None;
     apply_host := λ _ _ h, HostReturn VUndef h;
     refresh := RefreshAbsent |}.

(** A component (0) rendering a message (2) whose id is the empty string. *)
Definition noid_heap : heap_t :=
  [ CObj (list_to_map [("props", VRef 1)]);
    CObj (list_to_map [("message", VRef 2)]);
    CObj (list_to_map [("id", VStr []); ("content", VStr (str "original"))]) ].

(** The state after the dialog of that message was confirmed with [X]. *)
Definition noid_edited : state :=
  State noid_heap {[ [] := str "X" ]} None None ∅ [] [] []
        [LogInfo (str "Locally edited message ")].

(** ** Running the monad *)

Ltac mrun :=
  cbn [mbind M_bind mret M_ret gets modify throw unmodelled try_catch
       alloc opt_member log_info log_error invoke_undo
       heap messageEdits unpatchRender unpatchContextMenu globals patches
       undone dialogs logs
       set_heap set_messageEdits set_unpatchRender set_unpatchContextMenu
       set_globals set_patches set_undone set_dialogs set_logs].


(** ** More sample hosts *)

(** A host without an interaction manager to schedule the refresh on. *)
Definition flaky_host : Host :=
  {| findByProps := λ _, VUndef;
     findByName := λ _, VUndef;
     before_rejects := λ _ _, None;
     apply_host := apply_host demo_host;
     refresh := RefreshThrows TypeError |}.

(** What the dialog confirmation leaves behind besides the store: the
    refresh callback, when one is created, and the log lines. *)
Definition confirm_cells (host : Host) : heap_t :=
  match refresh host with
  | RefreshScheduled => [CFun RefreshCallback]
  | _ => []
  end.

Definition confirm_logs (host : Host) (t key : jsstring) : list log_entry :=
  LogInfo (if bool_decide (trim t = [])
           then str "Removed local edit for message " ++ key
           else str "Locally edited message " ++ key)
  :: match refresh host with
     | RefreshThrows _ =>
         [LogInfo (str "Edit saved, may need to scroll to see changes")]
     | _ => []
     end.

(** The line [showLocalEdits] logs for [n] overrides. *)
Definition count_message (n : nat) : jsstring :=
  str "Currently have " ++ str (pretty n) ++ str " local message edits".

(** The number of overrides after the dialog of a message filed under [k]
    was confirmed with [t]: a blank text removes the override if there is
    one, any other text adds one if there is none, except under
    [__proto__], where nothing is added. *)
Definition count_after (m : gmap jsstring jsstring) (k t : jsstring) : nat :=
  match m !! k with
  | Some _ => if bool_decide (trim t = []) then pred (size m) else size m
  | None => if bool_decide (trim t = []) then size m
            else if bool_decide (k = str "__proto__") then size m
            else S (size m)
  end.

(** The argument list (8) of a call to [openContextMenuLazy]: the event (9)
    and the menu builder (7). *)
Definition call_heap : heap_t :=
  (demo_heap ++ [CArr [VRef 9; VRef 7]; CObj ∅])%list.

(** A computation that changes nothing but the heap. *)
Definition heap_only {A} (m : M A) : Prop :=
  ∀ s s', lands m s s' → set_heap (heap s) s' = s.

(** The state after the menu of message [m1] was opened with the override
    in place. *)
Definition demo_menu_opened : state :=
  match menu_wrapper demo_host (VRef 7) (VRef 1) demo_edited with
  | Ok _ s' => s'
  | _ => demo_edited
  end.

(** What [onLoad] looks up: the component [MessageContent], the
    context-menu module, and the object whose [openContextMenuLazy] is
    patched. *)
Definition render_target (host : Host) (h : heap_t) : jsval :=
  coalesce (opt_prop h (findByProps host [str "MessageContent"]) "MessageContent")
           (findByName host (str "MessageContent")).
Definition menu_module (host : Host) : jsval :=
  findByProps host [str "openContextMenuLazy"; str "closeContextMenu"].
Definition menu_target (host : Host) (h : heap_t) : jsval :=
  coalesce (get_prop h (menu_module host) "getByProps")
           (findByProps host [str "openContextMenuLazy"]).

(** What a completed [onLoad] installs from state [s]: a hook closure and a
    patch for each target that is truthy, the render hook first. *)
Definition render_cells (host : Host) (s : state) : heap_t :=
  if truthy (render_target host (heap s)) then [CFun RenderHook] else [].
Definition render_patches (host : Host) (s : state) : list patch :=
  if truthy (render_target host (heap s))
  then [Patch (str "render")
          (get_prop (heap s) (render_target host (heap s)) "prototype")
          (VRef (List.length (heap s)))]
  else [].
Definition menu_cells (host : Host) (s : state) : heap_t :=
  if truthy (menu_target host (heap s)) then [CFun MenuHook] else [].
Definition menu_patches (host : Host) (s : state) : list patch :=
  if truthy (menu_target host (heap s))
  then [Patch (str "openContextMenuLazy") (menu_target host (heap s))
          (VRef (List.length (heap s ++ render_cells host s)%list))]
  else [].

(** A host without the component: every module lookup answers the
    context-menu module (0), which has no [MessageContent] export. *)
Definition norender_heap : heap_t := [CObj ∅].

Definition norender_host : Host :=
  {| findByProps := λ _, VRef 0;
     findByName := λ _, VUndef;
     before_rejects := λ _ _, None;
     apply_host := λ _ _ h, HostReturn VUndef h;
     refresh := RefreshAbsent |}.

(** A host whose patcher refuses a target that is [undefined] or [null];
    its component class (1) has no prototype. *)
Definition picky_heap : heap_t :=
  [CObj (list_to_map [("MessageContent", VRef 1)]); CObj ∅].

Definition picky_host : Host :=
  {| findByProps := λ names,
       if bool_decide (names = [str "MessageContent"]) then VRef 0 else VUndef;
     findByName := λ _, VUndef;
     before_rejects := λ _ target,
       if nullish target then Some TypeError else None;
     apply_host := λ _ _ h, HostReturn VUndef h;
     refresh := RefreshAbsent |}.
(** ** Strings and the store *)

Lemma forallb_rev {A} (f : A → bool) (l : list A) :
  forallb f (rev l) = forallb f l.
Proof.
  induction l as [|x l IH]; simpl; [done|].
  rewrite forallb_app, IH. simpl. rewrite andb_true_r. apply andb_comm.
Qed.

Lemma trimStart_nil_iff s : trimStart s = [] ↔ forallb is_white s = true.
Proof.
  induction s as [|c s IH]; simpl; [done|].
  destruct (is_white c); simpl; [done|]. split; discriminate.
Qed.

Lemma blank_iff_all_white t : blank t ↔ forallb is_white t = true.
Proof.
  unfold blank, trim, trimEnd. rewrite <- trimStart_nil_iff. split.
  - intros H. apply (f_equal (@rev N)) in H. rewrite rev_involutive in H.
    simpl in H. destruct (trimStart t) as [|c u] eqn:E; [done|].
    exfalso. apply trimStart_nil_iff in H.
    rewrite forallb_rev in H. simpl in H.
    assert (Hc : is_white c = false).
    { clear H. induction t as [|d t IH]; simpl in E; [done|].
      destruct (is_white d) eqn:Ed; [by apply IH | congruence]. }
    by rewrite Hc in H.
  - intros ->. reflexivity.
Qed.

Lemma lookup_foldl_delete (ks : list jsstring) (m : gmap jsstring jsstring) k :
  foldl (λ acc key, delete key acc) m ks !! k
  = if decide (k ∈ ks) then None else m !! k.
Proof.
  revert m. induction ks as [|k' ks IH]; intros m; cbn [foldl].
  - case_decide as H; [by apply elem_of_nil in H | done].
  - rewrite IH. destruct (decide (k ∈ k' :: ks)) as [Hin|Hnin].
    + destruct (decide (k ∈ ks)); [done|].
      apply elem_of_cons in Hin as [->|?]; [apply lookup_delete_eq | done].
    + rewrite decide_False by set_solver. apply lookup_delete_ne. set_solver.
Qed.

Lemma delete_all_keys_empty m : delete_all_keys m = ∅.
Proof.
  apply map_eq. intros k. unfold delete_all_keys.
  rewrite lookup_foldl_delete, lookup_empty.
  case_decide as Hk; [done|].
  destruct (m !! k) as [v|] eqn:E; [|done].
  destruct Hk. apply list_elem_of_fmap. exists (k, v). split; [done|].
  by apply elem_of_map_to_list.
Qed.

Lemma store_ok_empty : store_ok ∅.
Proof. split; [intros k v; by rewrite lookup_empty | apply lookup_empty]. Qed.

Lemma store_ok_delete k m : store_ok m → store_ok (delete k m).
Proof.
  intros [H Hp]. split.
  - intros k' v Hk'. apply lookup_delete_Some in Hk' as [_ Hk']. eauto.
  - apply lookup_delete_None. by right.
Qed.

Lemma assign_edit_proto m t :
  m !! str "__proto__" = None → assign_edit m (str "__proto__") t = m.
Proof. intros H. unfold assign_edit. by rewrite bool_decide_eq_true_2. Qed.

Lemma assign_edit_insert m k t :
  k ≠ str "__proto__" → assign_edit m k t = <[k := t]> m.
Proof.
  intros H. unfold assign_edit. rewrite bool_decide_eq_false_2; [done|].
  by intros [? _].
Qed.

Lemma assign_edit_own m k t v :
  m !! k = Some v → assign_edit m k t = <[k := t]> m.
Proof.
  intros H. unfold assign_edit. rewrite bool_decide_eq_false_2; [done|].
  intros [_ ?]. congruence.
Qed.

Lemma assign_edit_other m k k' t :
  k' ≠ k → assign_edit m k t !! k' = m !! k'.
Proof.
  intros H. unfold assign_edit. case_bool_decide; [done|].
  by apply lookup_insert_ne.
Qed.

Lemma store_ok_assign k t m :
  ¬ blank t → store_ok m → store_ok (assign_edit m k t).
Proof.
  intros Ht [H Hp]. destruct (decide (k = str "__proto__")) as [->|Hk].
  - by rewrite assign_edit_proto.
  - rewrite assign_edit_insert by done. split.
    + intros k' v Hk'.
      apply lookup_insert_Some in Hk' as [[_ <-]|[_ Hk']]; eauto.
    + by rewrite lookup_insert_ne.
Qed.

Lemma member_ok v k s :
  nullish v = false → member v k s = Ok (get_prop (heap s) v k) s.
Proof. intros H. unfold member. by rewrite H. Qed.

Lemma to_key_ok v k s : property_key v = Some k → to_key v s = Ok k s.
Proof. intros H. unfold to_key. by rewrite H. Qed.

Lemma message_key_Some h message k :
  message_key h message = Some k →
  nullish message = false ∧ property_key (get_prop h message "id") = Some k.
Proof. unfold message_key. by destruct (nullish message). Qed.

Ltac mgo :=
  unfold mbind, M_bind, mret, M_ret; mrun;
  repeat (first [ rewrite member_ok by (eassumption || reflexivity)
                | erewrite to_key_ok by eassumption ]; mrun).

(** ** The dialog confirmation and the remove action *)

Lemma on_confirm_edits host message t k s :
  message_key (heap s) message = Some k →
  ∃ s', on_confirm host message t s = Ok () s'
        ∧ messageEdits s'
          = (if bool_decide (blank t) then delete k (messageEdits s)
             else assign_edit (messageEdits s) k t).
Proof.
  intros [Hn Hk]%message_key_Some. unfold on_confirm, blank.
  case_bool_decide; mgo; destruct (refresh host); mrun; by eexists.
Qed.

Lemma remove_action_edits message k s :
  message_key (heap s) message = Some k →
  ∃ s', remove_action message s = Ok () s'
        ∧ messageEdits s' = delete k (messageEdits s).
Proof.
  intros [Hn Hk]%message_key_Some. unfold remove_action. mgo. by eexists.
Qed.

(** X18. Confirming the dialog for a message with a text whose trimmed form
    is not empty files exactly that text, untrimmed, under the message's id,
    whatever the id except [__proto__]: reading the store at that id
    afterwards yields the text itself. *)
Theorem confirm_then_get host message t k s :
  message_key (heap s) message = Some k →
  k ≠ str "__proto__" →
  ¬ blank t →
  ∃ s', on_confirm host message t s = Ok () s'
        ∧ messageEdits s' !! k = Some t
        ∧ edit_lookup (messageEdits s') k = VStr t.
Proof.
  intros Hk Hp Ht.
  destruct (on_confirm_edits host message t k s Hk) as (s' & Hrun & He).
  rewrite bool_decide_eq_false_2, assign_edit_insert in He by done.
  exists s'. unfold edit_lookup. rewrite He, lookup_insert_eq. done.
Qed.

Lemma confirm_then_get_witness :
  message_key (heap demo_state) (VRef 2) = Some (str "m1")
  ∧ str "m1" ≠ str "__proto__"
  ∧ ¬ blank (str " Hello ")
  ∧ ∃ s', on_confirm demo_host (VRef 2) (str " Hello ") demo_state = Ok () s'
          ∧ messageEdits s' !! str "m1" = Some (str " Hello ")
          ∧ edit_lookup (messageEdits s') (str "m1") = VStr (str " Hello ").
Proof.
  split; [reflexivity|]. split; [by vm_compute|]. split; [by vm_compute|].
  apply (confirm_then_get demo_host (VRef 2) (str " Hello ") (str "m1") demo_state);
    [reflexivity | by vm_compute | by vm_compute].
Defined.

(** C3, at the id [__proto__]. The message's id is the string [__proto__]
    and the text [Hello] is not blank; the confirmation returns and logs the
    edit, yet the store is as empty as before, and reading it at that id
    yields the prototype object it inherits, not the text. *)
Theorem confirm_at_proto_id :
  message_key (heap (named_state (str "__proto__"))) (VRef 2)
    = Some (str "__proto__")
  ∧ ¬ blank (str "Hello")
  ∧ ∃ s', on_confirm demo_host (VRef 2) (str "Hello")
            (named_state (str "__proto__")) = Ok () s'
          ∧ messageEdits s' = ∅
          ∧ logs s' = [LogInfo (str "Locally edited message __proto__")]
          ∧ edit_lookup (messageEdits s') (str "__proto__")
            = VProtoMember (str "__proto__")
          ∧ edit_lookup (messageEdits s') (str "__proto__") ≠ VStr (str "Hello").
Proof.
  split; [reflexivity|]. split; [by vm_compute|].
  eexists. split; [vm_compute; reflexivity|].
  vm_compute. repeat split. discriminate.
Qed.

(** X19. Confirming the dialog with a text whose trimmed form is empty does
    to the store what the remove action does: from any state both return,
    both leave the same store, and that store has no override of its own
    under the message's id; reading it there yields [undefined] unless the
    id names a member of [Object.prototype]. *)
Theorem confirm_blank_is_remove host message t k s :
  message_key (heap s) message = Some k →
  blank t →
  ∃ s1 s2, on_confirm host message t s = Ok () s1
           ∧ remove_action message s = Ok () s2
           ∧ messageEdits s1 = messageEdits s2
           ∧ messageEdits s1 !! k = None
           ∧ (k ∉ object_prototype_names →
              edit_lookup (messageEdits s1) k = VUndef).
Proof.
  intros Hk Ht.
  destruct (on_confirm_edits host message t k s Hk) as (s1 & Hrun1 & He1).
  destruct (remove_action_edits message k s Hk) as (s2 & Hrun2 & He2).
  rewrite bool_decide_eq_true_2 in He1 by done.
  exists s1, s2. unfold edit_lookup.
  rewrite He1, He2, lookup_delete_eq. repeat split; try done.
  intros Hin. by rewrite bool_decide_eq_false_2.
Qed.

Lemma confirm_blank_is_remove_witness :
  message_key (heap demo_edited) (VRef 2) = Some (str "m1")
  ∧ blank (str "   ")
  ∧ ∃ s1 s2, on_confirm demo_host (VRef 2) (str "   ") demo_edited = Ok () s1
             ∧ remove_action (VRef 2) demo_edited = Ok () s2
             ∧ messageEdits s1 = messageEdits s2
             ∧ messageEdits s1 !! str "m1" = None
             ∧ (str "m1" ∉ object_prototype_names →
                edit_lookup (messageEdits s1) (str "m1") = VUndef).
Proof.
  split; [reflexivity|]. split; [reflexivity|].
  apply (confirm_blank_is_remove demo_host (VRef 2) (str "   ") (str "m1")
           demo_edited); reflexivity.
Defined.

(** C4, at the id [constructor]. With an override filed under that id, the
    blank confirmation and the remove action both return and both leave the
    empty store; reading the store at the id afterwards does not come back
    absent: it yields the inherited constructor, a truthy value. *)
Theorem confirm_blank_at_constructor_id :
  message_key (heap (named_state (str "constructor"))) (VRef 2)
    = Some (str "constructor")
  ∧ blank (str "   ")
  ∧ ∃ s1 s2,
      on_confirm demo_host (VRef 2) (str "   ")
        (set_messageEdits {[ str "constructor" := str "Hello" ]}
           (named_state (str "constructor"))) = Ok () s1
      ∧ remove_action (VRef 2)
          (set_messageEdits {[ str "constructor" := str "Hello" ]}
             (named_state (str "constructor"))) = Ok () s2
      ∧ messageEdits s1 = messageEdits s2
      ∧ messageEdits s1 = ∅
      ∧ edit_lookup (messageEdits s1) (str "constructor")
        = VProtoMember (str "constructor")
      ∧ truthy (edit_lookup (messageEdits s1) (str "constructor")) = true.
Proof.
  split; [reflexivity|]. split; [reflexivity|].
  eexists _, _. split; [vm_compute; reflexivity|].
  split; [vm_compute; reflexivity|].
  vm_compute. repeat split.
Qed.

(** ** The render hook *)

Lemma get_prop_truthy h v k :
  k ≠ "prototype" →
  truthy (get_prop h v k) = true →
  ∃ l f, v = VRef l ∧ h !! l = Some (CObj f) ∧ f !! k = Some (get_prop h v k).
Proof.
  intros Hk. destruct v as [| | | | |l|name]; try discriminate; unfold get_prop.
  - destruct (h !! l) as [[f| |]|] eqn:El; try discriminate.
    destruct (f !! k) as [x|] eqn:E; try discriminate. intros _. by exists l, f.
  - rewrite (bool_decide_eq_false_2 (k = "prototype")), andb_false_r by done.
    discriminate.
Qed.

Lemma opt_prop_truthy h v k :
  k ≠ "prototype" →
  truthy (opt_prop h v k) = true →
  ∃ l f, v = VRef l ∧ h !! l = Some (CObj f) ∧ f !! k = Some (opt_prop h v k).
Proof.
  unfold opt_prop. destruct (nullish v); [discriminate|]. apply get_prop_truthy.
Qed.

Lemma get_prop_obj h l f k x :
  h !! l = Some (CObj f) → f !! k = Some x → get_prop h (VRef l) k = x.
Proof. intros Hl Hk. unfold get_prop. by rewrite Hl, Hk. Qed.

Lemma opt_prop_ref h l k : opt_prop h (VRef l) k = get_prop h (VRef l) k.
Proof. reflexivity. Qed.

Lemma spread_obj h l f : h !! l = Some (CObj f) → spread h (VRef l) = f.
Proof. intros Hl. unfold spread. by rewrite Hl. Qed.

Lemma edit_lookup_Some m k v : m !! k = Some v → edit_lookup m k = VStr v.
Proof. intros H. unfold edit_lookup. by rewrite H. Qed.

(** Settles [k ∉ l] for a given key and list by evaluation. *)
Ltac not_a_member :=
  let H := fresh in
  intros H; apply (bool_decide_pack _) in H; vm_compute in H; exact H.

Ltac is_a_member := apply (bool_decide_unpack _); vm_compute; exact I.

Lemma edit_lookup_None m k :
  m !! k = None → k ∉ object_prototype_names → edit_lookup m k = VUndef.
Proof.
  intros H Hk. unfold edit_lookup. by rewrite H, bool_decide_eq_false_2.
Qed.

Lemma edit_lookup_inherited m k :
  m !! k = None → k ∈ object_prototype_names →
  edit_lookup m k = VProtoMember k.
Proof.
  intros H Hk. unfold edit_lookup. by rewrite H, bool_decide_eq_true_2.
Qed.

(** Whatever the store answers that is truthy is a non-empty override of
    its own or an inherited member. *)
Lemma edit_lookup_truthy m k :
  truthy (edit_lookup m k) = true →
  (∃ v, m !! k = Some v ∧ v ≠ [])
  ∨ (m !! k = None ∧ k ∈ object_prototype_names).
Proof.
  unfold edit_lookup. destruct (m !! k) as [v|] eqn:E.
  - simpl. case_bool_decide; [discriminate|]. intros _. left. by exists v.
  - case_bool_decide; [|discriminate]. intros _. by right.
Qed.

(** A truthy [this.props?.message?.id] pins down the three objects on the
    path. *)
Lemma render_id_truthy h this :
  truthy (render_id h this) = true →
  ∃ lt tf lp pf lm mf,
    this = VRef lt ∧ h !! lt = Some (CObj tf)
    ∧ tf !! "props" = Some (VRef lp) ∧ h !! lp = Some (CObj pf)
    ∧ pf !! "message" = Some (VRef lm) ∧ h !! lm = Some (CObj mf)
    ∧ mf !! "id" = Some (render_id h this).
Proof.
  unfold render_id, render_message. intros Hid.
  destruct (opt_prop_truthy _ _ "id" ltac:(done) Hid)
    as (lm & mf & Em & Hlm & Hmf).
  assert (Hm : truthy (opt_prop h (get_prop h this "props") "message") = true)
    by by rewrite Em.
  destruct (opt_prop_truthy _ _ "message" ltac:(done) Hm)
    as (lp & pf & Ep & Hlp & Hpf).
  assert (Hp : truthy (get_prop h this "props") = true) by by rewrite Ep.
  destruct (get_prop_truthy _ _ "props" ltac:(done) Hp)
    as (lt & tf & Et & Hlt & Htf).
  exists lt, tf, lp, pf, lm, mf. rewrite <- Ep, <- Em. done.
Qed.

Lemma render_id_obj h lt tf lp pf lm mf idv :
  h !! lt = Some (CObj tf) → tf !! "props" = Some (VRef lp) →
  h !! lp = Some (CObj pf) → pf !! "message" = Some (VRef lm) →
  h !! lm = Some (CObj mf) → mf !! "id" = Some idv →
  render_message h (VRef lt) = VRef lm ∧ render_id h (VRef lt) = idv.
Proof.
  intros Hlt Htf Hlp Hpf Hlm Hmf. unfold render_id, render_message.
  rewrite (get_prop_obj _ _ _ _ _ Hlt Htf), opt_prop_ref.
  rewrite (get_prop_obj _ _ _ _ _ Hlp Hpf), opt_prop_ref.
  by rewrite (get_prop_obj _ _ _ _ _ Hlm Hmf).
Qed.

(** The substituting run of the hook, on explicit objects. *)
Lemma render_hook_run s lt tf lp pf lm mf idv k v :
  heap s !! lt = Some (CObj tf) → tf !! "props" = Some (VRef lp) →
  heap s !! lp = Some (CObj pf) → pf !! "message" = Some (VRef lm) →
  heap s !! lm = Some (CObj mf) → mf !! "id" = Some idv →
  truthy idv = true → property_key idv = Some k →
  messageEdits s !! k = Some v → v ≠ [] →
  render_hook (VRef lt) s = Ok () (set_heap (render_heap lt tf pf mf v (heap s)) s).
Proof.
  intros Hlt Htf Hlp Hpf Hlm Hmf Hid Hk Hv Hne.
  assert (Hv' : truthy (VStr v) = true) by (simpl; by rewrite bool_decide_eq_false_2).
  pose proof (get_prop_obj _ _ _ _ _ Hlt Htf) as Ep.
  pose proof (get_prop_obj _ _ _ _ _ Hlp Hpf) as Em.
  pose proof (get_prop_obj _ _ _ _ _ Hlm Hmf) as Ei.
  assert (Hlen : lt < List.length (heap s)) by by eapply lookup_lt_Some.
  unfold render_hook, member, set_member, render_heap.
  unfold mbind, M_bind, mret, M_ret.
  repeat (mrun; cbn [nullish];
          rewrite ?Ep, ?opt_prop_ref, ?Em, ?Ei, ?Hid, ?(to_key_ok _ _ _ Hk),
            ?(edit_lookup_Some _ _ _ Hv), ?Hv',
            ?(spread_obj _ _ _ Hlp), ?(spread_obj _ _ _ Hlm)).
  rewrite <- app_assoc. cbn [app].
  rewrite (lookup_app_l (heap s)) by done.
  rewrite Hlt, length_app.
  cbn [List.length]. rewrite Nat.add_1_r. reflexivity.
Qed.

(** The objects of the path after a substituting run. *)
Lemma render_heap_lookups lt tf pf mf v h :
  lt < List.length h →
  render_heap lt tf pf mf v h !! lt
    = Some (CObj (<["props" := VRef (S (List.length h))]> tf))
  ∧ render_heap lt tf pf mf v h !! S (List.length h)
    = Some (CObj (<["message" := VRef (List.length h)]> pf))
  ∧ render_heap lt tf pf mf v h !! List.length h
    = Some (CObj (<["content" := VStr v]> mf))
  ∧ (∀ l, l ≠ lt → l < List.length h → render_heap lt tf pf mf v h !! l = h !! l).
Proof.
  intros Hlen. unfold render_heap. repeat split.
  - apply list_lookup_insert_eq. rewrite length_app. simpl. lia.
  - rewrite list_lookup_insert_ne by lia.
    rewrite lookup_app_r by lia. by replace (S (List.length h) - List.length h) with 1 by lia.
  - rewrite list_lookup_insert_ne by lia.
    rewrite lookup_app_r by lia. by rewrite Nat.sub_diag.
  - intros l Hl Hlt. rewrite list_lookup_insert_ne by done.
    by rewrite lookup_app_l.
Qed.

Lemma render_hook_nullish this s :
  nullish this = true → render_hook this s = Throw TypeError s.
Proof.
  intros Hn. unfold render_hook, member. rewrite Hn. reflexivity.
Qed.

Lemma render_hook_no_id this s :
  nullish this = false →
  truthy (render_id (heap s) this) = false →
  render_hook this s = Ok () s.
Proof.
  unfold render_id, render_message. intros Hn Hid.
  unfold render_hook. mgo. rewrite Hid. mrun. rewrite Hid. reflexivity.
Qed.

Lemma render_hook_no_key this s :
  truthy (render_id (heap s) this) = true →
  property_key (render_id (heap s) this) = None →
  render_hook this s = Unmodelled.
Proof.
  intros Hid Hk.
  destruct (render_id_truthy _ _ Hid) as (lt & tf & lp & pf & lm & mf
    & -> & _).
  revert Hid Hk. unfold render_id, render_message. intros Hid Hk.
  unfold render_hook. mgo. rewrite Hid. unfold to_key. rewrite Hk. reflexivity.
Qed.

Lemma render_hook_no_edit this s k :
  truthy (render_id (heap s) this) = true →
  property_key (render_id (heap s) this) = Some k →
  truthy (edit_lookup (messageEdits s) k) = false →
  render_hook this s = Ok () s.
Proof.
  intros Hid Hk He.
  destruct (render_id_truthy _ _ Hid) as (lt & tf & lp & pf & lm & mf
    & -> & _).
  revert Hid Hk. unfold render_id, render_message. intros Hid Hk.
  unfold render_hook. mgo. rewrite Hid. mgo. rewrite He. reflexivity.
Qed.

Lemma state_eta s : set_heap (heap s) s = s.
Proof. by destruct s. Qed.

Lemma nonempty_truthy v : v ≠ [] → truthy (VStr v) = true.
Proof. intros H. simpl. by rewrite bool_decide_eq_false_2. Qed.

(** C6, as the code has it. When the message of the component has a truthy
    id and a non-empty override is stored under it, the hook returns with
    [this.props] bound to a new object that has the fields of the old props
    except that [message] is a new object, which has the fields of the old
    message except that [content] is the override.  No object that existed
    before is changed apart from the [props] binding of the component, the
    old message keeps its content, and nothing but the heap changes. *)
Theorem render_substitutes this s k v :
  truthy (render_id (heap s) this) = true →
  property_key (render_id (heap s) this) = Some k →
  messageEdits s !! k = Some v →
  v ≠ [] →
  let props := get_prop (heap s) this "props" in
  let message := render_message (heap s) this in
  ∃ s' props' message',
    render_hook this s = Ok () s'
    ∧ get_prop (heap s') this "props" = props'
    ∧ spread (heap s') props' = <["message" := message']> (spread (heap s) props)
    ∧ spread (heap s') message' = <["content" := VStr v]> (spread (heap s) message)
    ∧ spread (heap s') this = <["props" := props']> (spread (heap s) this)
    ∧ (∀ l, VRef l ≠ this → l < List.length (heap s) → heap s' !! l = heap s !! l)
    ∧ get_prop (heap s') message "content" = get_prop (heap s) message "content"
    ∧ set_heap (heap s) s' = s.
Proof.
  intros Hid Hk Hv Hne props message.
  destruct (render_id_truthy _ _ Hid) as (lt & tf & lp & pf & lm & mf
    & -> & Hlt & Htf & Hlp & Hpf & Hlm & Hmf).
  pose proof (render_hook_run s lt tf lp pf lm mf _ k v
                Hlt Htf Hlp Hpf Hlm Hmf Hid Hk Hv Hne) as Hrun.
  assert (Hlen : lt < List.length (heap s)) by by eapply lookup_lt_Some.
  destruct (render_heap_lookups lt tf pf mf v (heap s) Hlen)
    as (Ht' & Hp' & Hm' & Hold).
  destruct (render_id_obj _ _ _ _ _ _ _ _ Hlt Htf Hlp Hpf Hlm Hmf) as [Emsg _].
  subst props message. rewrite Emsg.
  rewrite (get_prop_obj _ _ _ _ _ Hlt Htf).
  exists (set_heap (render_heap lt tf pf mf v (heap s)) s),
    (VRef (S (List.length (heap s)))), (VRef (List.length (heap s))).
  split; [exact Hrun|]. cbn [heap set_heap].
  rewrite (get_prop_obj _ _ _ _ _ Ht' (lookup_insert_eq _ _ _)).
  split; [reflexivity|].
  rewrite (spread_obj _ _ _ Hp'), (spread_obj _ _ _ Hm'), (spread_obj _ _ _ Ht').
  rewrite (spread_obj _ _ _ Hlp), (spread_obj _ _ _ Hlm), (spread_obj _ _ _ Hlt).
  repeat (split; [reflexivity|]).
  split; [|split].
  - intros l Hl Hll. apply Hold; [congruence | done].
  - unfold get_prop. destruct (decide (lm = lt)) as [->|Hne'].
    + rewrite Ht', Hlt. by rewrite lookup_insert_ne.
    + rewrite Hold; [done | done | by eapply lookup_lt_Some].
  - by destruct s.
Qed.

Lemma render_substitutes_witness :
  truthy (render_id (heap demo_edited) (VRef 0)) = true
  ∧ ∃ s' props' message',
      render_hook (VRef 0) demo_edited = Ok () s'
      ∧ get_prop (heap s') (VRef 0) "props" = props'
      ∧ spread (heap s') props'
        = <["message" := message']>
            (spread (heap demo_edited) (get_prop (heap demo_edited) (VRef 0) "props"))
      ∧ spread (heap s') message'
        = <["content" := VStr (str "Hello")]>
            (spread (heap demo_edited) (render_message (heap demo_edited) (VRef 0)))
      ∧ spread (heap s') (VRef 0)
        = <["props" := props']> (spread (heap demo_edited) (VRef 0))
      ∧ (∀ l, VRef l ≠ VRef 0 → l < List.length (heap demo_edited) →
              heap s' !! l = heap demo_edited !! l)
      ∧ get_prop (heap s') (render_message (heap demo_edited) (VRef 0)) "content"
        = get_prop (heap demo_edited) (render_message (heap demo_edited) (VRef 0)) "content"
      ∧ set_heap (heap demo_edited) s' = demo_edited.
Proof.
  split; [reflexivity|].
  apply (render_substitutes (VRef 0) demo_edited (str "m1") (str "Hello"));
    [reflexivity | reflexivity | reflexivity | discriminate].
Defined.

(** C6 fails as stated: a message whose id is the empty string can have an
    override (confirming its dialog files one under the empty key), and the
    hook then leaves the component as it is, the original content in
    place. *)
Lemma render_skips_empty_id :
  on_confirm demo_host (VRef 2) (str "X") (initial noid_heap ∅) = Ok () noid_edited
  ∧ message_key (heap noid_edited) (render_message (heap noid_edited) (VRef 0))
    = Some []
  ∧ messageEdits noid_edited !! [] = Some (str "X")
  ∧ ¬ blank (str "X")
  ∧ render_hook (VRef 0) noid_edited = Ok () noid_edited
  ∧ render_content (heap noid_edited) (VRef 0) = VStr (str "original")
  ∧ render_content (heap noid_edited) (VRef 0) ≠ VStr (str "X").
Proof. vm_compute. repeat split; discriminate. Qed.

Lemma message_key_render h this k :
  message_key h (render_message h this) = Some k →
  nullish this = false ∧ property_key (render_id h this) = Some k.
Proof.
  intros [Hn Hk]%message_key_Some. split.
  - destruct this; try reflexivity; by vm_compute in Hn.
  - unfold render_id, opt_prop. by rewrite Hn.
Qed.

(** C7. For a message with an active override, the hook run twice in a row
    on the same component returns both times, leaves the store alone, and
    the component shows after the second run the content it shows after the
    first; when the id is truthy that content is the override. *)
Theorem render_twice this s k v :
  message_key (heap s) (render_message (heap s) this) = Some k →
  messageEdits s !! k = Some v →
  v ≠ [] →
  ∃ s1 s2,
    render_hook this s = Ok () s1
    ∧ render_hook this s1 = Ok () s2
    ∧ messageEdits s1 = messageEdits s
    ∧ messageEdits s2 = messageEdits s
    ∧ render_content (heap s2) this = render_content (heap s1) this
    ∧ (truthy (render_id (heap s) this) = true →
       render_content (heap s1) this = VStr v).
Proof.
  intros [Hn Hk]%message_key_render Hv Hne.
  destruct (truthy (render_id (heap s) this)) eqn:Hid.
  - destruct (render_id_truthy _ _ Hid) as (lt & tf & lp & pf & lm & mf
      & -> & Hlt & Htf & Hlp & Hpf & Hlm & Hmf).
    pose proof (render_hook_run s lt tf lp pf lm mf _ k v
                  Hlt Htf Hlp Hpf Hlm Hmf Hid Hk Hv Hne) as Hrun1.
    assert (Hlen : lt < List.length (heap s)) by by eapply lookup_lt_Some.
    destruct (render_heap_lookups lt tf pf mf v (heap s) Hlen)
      as (Ht1 & Hp1 & Hm1 & _).
    set (s1 := set_heap (render_heap lt tf pf mf v (heap s)) s) in *.
    assert (Hid1 : (<["content" := VStr v]> mf : gmap string jsval) !! "id"
                   = Some (render_id (heap s) (VRef lt)))
      by by rewrite lookup_insert_ne.
    pose proof (render_hook_run s1 lt _ _ _ _ _ _ k v
                  Ht1 (lookup_insert_eq _ _ _) Hp1 (lookup_insert_eq _ _ _)
                  Hm1 Hid1 Hid Hk Hv Hne) as Hrun2.
    assert (Hlen1 : lt < List.length (heap s1)) by by eapply lookup_lt_Some.
    destruct (render_heap_lookups lt
                (<["props" := VRef (S (List.length (heap s)))]> tf)
                (<["message" := VRef (List.length (heap s))]> pf)
                (<["content" := VStr v]> mf) v (heap s1) Hlen1)
      as (Ht2 & Hp2 & Hm2 & _).
    eexists s1, _. split; [exact Hrun1|]. split; [exact Hrun2|].
    do 2 (split; [reflexivity|]).
    assert (Hc1 : render_content (heap s1) (VRef lt) = VStr v).
    { unfold render_content.
      change (heap s1) with (render_heap lt tf pf mf v (heap s)).
      destruct (render_id_obj _ _ _ _ _ _ _ _ Ht1 (lookup_insert_eq _ _ _)
                  Hp1 (lookup_insert_eq _ _ _) Hm1 Hid1) as [-> _].
      apply (get_prop_obj _ _ _ _ _ Hm1). apply lookup_insert_eq. }
    split; [|done]. rewrite Hc1. unfold render_content. cbn [heap set_heap].
    change (render_heap lt tf pf mf v (heap s)) with (heap s1) in Ht2, Hp2, Hm2 |- *.
    assert (Hid2 : (<["content" := VStr v]> (<["content" := VStr v]> mf)
                    : gmap string jsval) !! "id"
                   = Some (render_id (heap s) (VRef lt)))
      by by rewrite !lookup_insert_ne.
    destruct (render_id_obj _ _ _ _ _ _ _ _ Ht2 (lookup_insert_eq _ _ _)
                Hp2 (lookup_insert_eq _ _ _) Hm2 Hid2) as [-> _].
    apply (get_prop_obj _ _ _ _ _ Hm2). apply lookup_insert_eq.
  - pose proof (render_hook_no_id this s Hn Hid) as Hrun.
    exists s, s. repeat (split; [done|]). done.
Qed.

Lemma render_twice_witness :
  message_key (heap demo_edited) (render_message (heap demo_edited) (VRef 0))
    = Some (str "m1")
  ∧ ∃ s1 s2,
      render_hook (VRef 0) demo_edited = Ok () s1
      ∧ render_hook (VRef 0) s1 = Ok () s2
      ∧ messageEdits s1 = messageEdits demo_edited
      ∧ messageEdits s2 = messageEdits demo_edited
      ∧ render_content (heap s2) (VRef 0) = render_content (heap s1) (VRef 0)
      ∧ (truthy (render_id (heap demo_edited) (VRef 0)) = true →
         render_content (heap s1) (VRef 0) = VStr (str "Hello")).
Proof.
  split; [reflexivity|].
  apply (render_twice (VRef 0) demo_edited (str "m1") (str "Hello"));
    [reflexivity | reflexivity | discriminate].
Defined.

(** X20. The hook changes the state only when the store answers. When it
    lands in a state other than the one it started from, the message id is
    truthy and the store read at it is truthy: a non-empty override stored
    under the id or, when the store has none, the member of
    [Object.prototype] that the id names.  When the id is falsy, in
    particular missing or the empty string, the hook returns with the state
    exactly as it was, whatever the store holds (an entry under the empty
    key included). *)
Theorem render_changes_only_on_truthy_read this s :
  (∀ s', lands (render_hook this) s s' → s' ≠ s →
         truthy (render_id (heap s) this) = true
         ∧ ∃ k, property_key (render_id (heap s) this) = Some k
                ∧ ((∃ v, messageEdits s !! k = Some v ∧ v ≠ [])
                   ∨ (messageEdits s !! k = None
                      ∧ k ∈ object_prototype_names)))
  ∧ (nullish this = false →
     truthy (render_id (heap s) this) = false →
     render_hook this s = Ok () s).
Proof.
  split; [|apply render_hook_no_id].
  intros s' Hland Hne.
  assert (Hsame : ∀ r, render_hook this s = r →
                       (r = Ok () s ∨ r = Throw TypeError s ∨ r = Unmodelled) →
                       False).
  { intros r Hr Hcase. destruct Hland as [[a H]|[e H]];
      rewrite Hr in H; destruct Hcase as [->|[->| ->]]; congruence. }
  destruct (nullish this) eqn:Hn.
  { destruct (Hsame _ (render_hook_nullish _ _ Hn)); auto. }
  destruct (truthy (render_id (heap s) this)) eqn:Hid.
  2:{ destruct (Hsame _ (render_hook_no_id _ _ Hn Hid)); auto. }
  split; [done|].
  destruct (property_key (render_id (heap s) this)) as [k|] eqn:Hk.
  2:{ destruct (Hsame _ (render_hook_no_key _ _ Hid Hk)); auto. }
  destruct (truthy (edit_lookup (messageEdits s) k)) eqn:He.
  2:{ destruct (Hsame _ (render_hook_no_edit _ _ _ Hid Hk He)); auto. }
  exists k. split; [done|]. by apply edit_lookup_truthy.
Qed.

Lemma render_changes_only_on_truthy_read_witness :
  messageEdits noid_edited !! [] = Some (str "X")
  ∧ nullish (VRef 0) = false
  ∧ truthy (render_id (heap noid_edited) (VRef 0)) = false
  ∧ render_hook (VRef 0) noid_edited = Ok () noid_edited.
Proof.
  split; [reflexivity|]. split; [reflexivity|]. split; [reflexivity|].
  apply (proj2 (render_changes_only_on_truthy_read (VRef 0) noid_edited));
    reflexivity.
Defined.

(** C10, at the id [toString]. The store is empty and the message's id is
    the string [toString]; the hook reads the inherited function, which is
    truthy, and replaces [this.props]: the component is left rendering that
    function in place of the message's content. *)
Theorem render_at_toString_id :
  messageEdits (named_state (str "toString")) = ∅
  ∧ render_id (heap (named_state (str "toString"))) (VRef 0)
    = VStr (str "toString")
  ∧ render_content (heap (named_state (str "toString"))) (VRef 0)
    = VStr (str "original")
  ∧ ∃ s', render_hook (VRef 0) (named_state (str "toString")) = Ok () s'
          ∧ s' ≠ named_state (str "toString")
          ∧ get_prop (heap s') (VRef 0) "props"
            ≠ get_prop (heap (named_state (str "toString"))) (VRef 0) "props"
          ∧ render_content (heap s') (VRef 0)
            = VProtoMember (str "toString").
Proof.
  split; [reflexivity|]. split; [reflexivity|]. split; [reflexivity|].
  eexists. split; [vm_compute; reflexivity|].
  split.
  { intros H. apply (f_equal (λ x, List.length (heap x))) in H.
    vm_compute in H. discriminate. }
  vm_compute. split; [discriminate | reflexivity].
Qed.

(** ** The menu wrapper *)

Lemma make_editButton_run host message k s :
  message_key (heap s) message = Some k →
  make_editButton host message s
  = Ok (VRef (S (List.length (heap s))))
       (set_heap
          (heap s ++
           [CFun (EditAction message);
            CObj (editButton_fields host
                    (if truthy (edit_lookup (messageEdits s) k)
                     then str "Edit Local Copy" else str "Edit Locally")
                    (VRef (List.length (heap s))))])%list s).
Proof.
  intros [Hn Hk]%message_key_Some. unfold make_editButton. mgo.
  unfold alloc; mrun. rewrite length_app, <- app_assoc. cbn [List.length app].
  by rewrite Nat.add_1_r.
Qed.

Lemma make_removeButton_run host message k s :
  message_key (heap s) message = Some k →
  make_removeButton host message s
  = if truthy (edit_lookup (messageEdits s) k)
    then Ok (VRef (S (List.length (heap s))))
            (set_heap
               (heap s ++
                [CFun (RemoveAction message);
                 CObj (removeButton_fields host (VRef (List.length (heap s))))])%list
               s)
    else Ok VNull s.
Proof.
  intros [Hn Hk]%message_key_Some. unfold make_removeButton. mgo.
  destruct (truthy (edit_lookup (messageEdits s) k)); mgo; [|done].
  unfold alloc; mrun. rewrite length_app, <- app_assoc. cbn [List.length app].
  by rewrite Nat.add_1_r.
Qed.

Lemma menu_children_truthy h menu :
  truthy (menu_children h menu) = true →
  ∃ lm mf lp pf,
    menu = VRef lm ∧ h !! lm = Some (CObj mf)
    ∧ mf !! "props" = Some (VRef lp) ∧ h !! lp = Some (CObj pf)
    ∧ pf !! "children" = Some (menu_children h menu).
Proof.
  unfold menu_children. intros H.
  destruct (opt_prop_truthy _ _ "children" ltac:(done) H)
    as (lp & pf & Ep & Hlp & Hpf).
  assert (Hp : truthy (opt_prop h menu "props") = true) by by rewrite Ep.
  destruct (opt_prop_truthy _ _ "props" ltac:(done) Hp)
    as (lm & mf & -> & Hlm & Hmf).
  exists lm, mf, lp, pf. rewrite <- Ep. done.
Qed.

Lemma isArray_true h v :
  isArray h v = true → ∃ l a, v = VRef l ∧ h !! l = Some (CArr a).
Proof.
  destruct v as [| | | | |l|?]; try discriminate. unfold isArray.
  destruct (h !! l) as [[| a |]|] eqn:E; try discriminate. eauto.
Qed.

Lemma child_list_array h l a : h !! l = Some (CArr a) → child_list h (VRef l) = a.
Proof. intros H. unfold child_list. by rewrite H. Qed.

Lemma child_list_single h v : isArray h v = false → child_list h v = [v].
Proof.
  destruct v as [| | | | |l|?]; try reflexivity. unfold isArray, child_list.
  by destruct (h !! l) as [[| a |]|].
Qed.

Lemma push_run l a x s :
  heap s !! l = Some (CArr a) →
  push (VRef l) x s = Ok () (set_heap (<[l := CArr (a ++ [x])]> (heap s)) s).
Proof. intros H. unfold push. by rewrite H. Qed.

Lemma set_member_run l f k x s :
  heap s !! l = Some (CObj f) →
  set_member (VRef l) k x s
  = Ok () (set_heap (<[l := CObj (<[k := x]> f)]> (heap s)) s).
Proof. intros H. unfold set_member. cbn [nullish]. by rewrite H. Qed.

(** The last four statements of the append block, once the array
    [children] is fixed. *)
Lemma append_tail_run s c base lm mf lp pf edit remove :
  heap s !! c = Some (CArr base) →
  heap s !! lm = Some (CObj mf) → mf !! "props" = Some (VRef lp) →
  heap s !! lp = Some (CObj pf) →
  (push (VRef c) edit;;
   (if truthy remove then push (VRef c) remove else mret ());;
   menuProps ← member (VRef lm) "props";
   set_member menuProps "children" (VRef c)) s
  = Ok () (set_heap
             (<[lp := CObj (<["children" := VRef c]> pf)]>
                (<[c := CArr (base ++ edit :: (if truthy remove then [remove] else []))]>
                   (heap s)))
             s).
Proof.
  intros Hc Hlm Hmf Hlp.
  assert (Hclen : c < List.length (heap s)) by by eapply lookup_lt_Some.
  assert (Hcm : c ≠ lm) by congruence.
  assert (Hcp : c ≠ lp) by congruence.
  unfold mbind, M_bind, mret, M_ret.
  rewrite (push_run _ _ _ _ Hc).
  destruct (truthy remove).
  - erewrite push_run by (cbn [heap set_heap]; by apply list_lookup_insert_eq).
    cbn [heap set_heap]. rewrite list_insert_insert_eq.
    rewrite member_ok by reflexivity. cbn [heap set_heap].
    erewrite get_prop_obj; [| by rewrite list_lookup_insert_ne | done].
    erewrite set_member_run by (cbn [heap set_heap]; by rewrite list_lookup_insert_ne).
    cbn [heap set_heap]. by rewrite <- app_assoc.
  - rewrite member_ok by reflexivity. cbn [heap set_heap].
    erewrite get_prop_obj; [| by rewrite list_lookup_insert_ne | done].
    erewrite set_member_run by (cbn [heap set_heap]; by rewrite list_lookup_insert_ne).
    reflexivity.
Qed.

Lemma append_final_facts (h : heap_t) c base lm mf lp pf (l' : list jsval) :
  h !! c = Some (CArr base) →
  h !! lm = Some (CObj mf) → mf !! "props" = Some (VRef lp) →
  h !! lp = Some (CObj pf) →
  let hf := <[lp := CObj (<["children" := VRef c]> pf)]> (<[c := CArr l']> h) in
  hf !! lp = Some (CObj (<["children" := VRef c]> pf))
  ∧ menu_children hf (VRef lm) = VRef c
  ∧ hf !! c = Some (CArr l')
  ∧ (∀ l x, h !! l = Some x → hf !! l = Some x ∨ l = lp ∨ ∃ a, x = CArr a).
Proof.
  intros Hc Hlm Hmf Hlp hf.
  assert (Hclen : c < List.length h) by by eapply lookup_lt_Some.
  assert (Hplen : lp < List.length h) by by eapply lookup_lt_Some.
  assert (Hcp : c ≠ lp) by congruence.
  assert (Hflp : hf !! lp = Some (CObj (<["children" := VRef c]> pf))).
  { subst hf. apply list_lookup_insert_eq. by rewrite length_insert. }
  split; [done|]. split; [|split].
  - unfold menu_children. rewrite !opt_prop_ref.
    assert (Ep : get_prop hf (VRef lm) "props" = VRef lp).
    { destruct (decide (lm = lp)) as [->|Hne].
      + apply (get_prop_obj _ _ _ _ _ Hflp). rewrite lookup_insert_ne by done.
        congruence.
      + apply (get_prop_obj _ _ mf); [|done]. subst hf.
        rewrite !list_lookup_insert_ne by congruence. done. }
    rewrite Ep, opt_prop_ref.
    apply (get_prop_obj _ _ _ _ _ Hflp). apply lookup_insert_eq.
  - subst hf. rewrite list_lookup_insert_ne by done.
    by apply list_lookup_insert_eq.
  - intros l x Hl. destruct (decide (l = lp)) as [->|Hlp']; [by right; left|].
    destruct (decide (l = c)) as [->|Hlc].
    + right; right. exists base. congruence.
    + left. subst hf. by rewrite !list_lookup_insert_ne.
Qed.

Lemma append_buttons_run menu edit remove s :
  truthy (menu_children (heap s) menu) = true →
  ∃ s' lp pf c,
    append_buttons menu edit remove s = Ok () s'
    ∧ opt_prop (heap s) menu "props" = VRef lp
    ∧ heap s !! lp = Some (CObj pf)
    ∧ heap s' !! lp = Some (CObj (<["children" := VRef c]> pf))
    ∧ menu_children (heap s') menu = VRef c
    ∧ heap s' !! c
      = Some (CArr (child_list (heap s) (menu_children (heap s) menu)
                    ++ edit :: (if truthy remove then [remove] else [])))
    ∧ (∀ l x, heap s !! l = Some x →
              heap s' !! l = Some x ∨ l = lp ∨ ∃ a, x = CArr a)
    ∧ set_heap (heap s) s' = s.
Proof.
  intros H.
  destruct (menu_children_truthy _ _ H) as (lm & mf & lp & pf
    & -> & Hlm & Hmf & Hlp & Hpf).
  set (existing := menu_children (heap s) (VRef lm)) in *.
  pose proof (get_prop_obj _ _ _ _ _ Hlm Hmf) as Ep.
  pose proof (get_prop_obj _ _ _ _ _ Hlp Hpf) as Ec.
  unfold append_buttons. mgo. rewrite !opt_prop_ref, Ep, opt_prop_ref, Ec, H.
  mgo. rewrite Ep. mgo. rewrite Ec. clearbody existing.
  destruct (isArray (heap s) existing) eqn:HA.
  - destruct (isArray_true _ _ HA) as (lc & a & -> & Hlc).
    rewrite (child_list_array _ _ _ Hlc).
    pose proof (append_tail_run s lc a lm mf lp pf edit remove Hlc Hlm Hmf Hlp)
      as Htail.
    destruct (append_final_facts (heap s) lc a lm mf lp pf
                (a ++ edit :: (if truthy remove then [remove] else []))
                Hlc Hlm Hmf Hlp) as (F1 & F2 & F3 & F4).
    eexists _, lp, pf, lc. split; [exact Htail|]. cbn [heap set_heap].
    repeat (split; [done|]). by destruct s.
  - rewrite (child_list_single _ _ HA).
    set (n := List.length (heap s)).
    set (s0 := set_heap (heap s ++ [CArr [existing]]) s).
    assert (Hn : heap s0 !! n = Some (CArr [existing])).
    { subst s0 n. cbn [heap set_heap]. by rewrite list_lookup_middle. }
    assert (Hlm0 : heap s0 !! lm = Some (CObj mf)).
    { subst s0. cbn [heap set_heap]. rewrite lookup_app_l; [done|].
      by eapply lookup_lt_Some. }
    assert (Hlp0 : heap s0 !! lp = Some (CObj pf)).
    { subst s0. cbn [heap set_heap]. rewrite lookup_app_l; [done|].
      by eapply lookup_lt_Some. }
    pose proof (append_tail_run s0 n [existing] lm mf lp pf edit remove
                  Hn Hlm0 Hmf Hlp0) as Htail.
    destruct (append_final_facts (heap s0) n [existing] lm mf lp pf
                ([existing] ++ edit :: (if truthy remove then [remove] else []))
                Hn Hlm0 Hmf Hlp0) as (F1 & F2 & F3 & F4).
    eexists _, lp, pf, n. split; [exact Htail|]. cbn [heap set_heap].
    repeat (split; [done|]). split; [|by destruct s].
    intros l x Hl. apply F4. subst s0. cbn [heap set_heap].
    rewrite lookup_app_l; [done|]. by eapply lookup_lt_Some.
Qed.

(** Allocation only appends: what was read before reads the same after. *)
Lemma get_prop_app h h' l k :
  l < List.length h → get_prop (h ++ h') (VRef l) k = get_prop h (VRef l) k.
Proof. intros Hl. unfold get_prop. by rewrite lookup_app_l. Qed.

Lemma is_object_inv h v :
  is_object h v = true → ∃ l f, v = VRef l ∧ h !! l = Some (CObj f).
Proof.
  destruct v as [| | | | |l|?]; try discriminate. unfold is_object.
  destruct (h !! l) as [[f| |]|] eqn:E; try discriminate. eauto.
Qed.

Lemma message_key_app h h' message :
  is_object h message = true →
  message_key (h ++ h') message = message_key h message.
Proof.
  intros (l & f & -> & Hl)%is_object_inv. unfold message_key. cbn [nullish].
  rewrite get_prop_app; [done|]. by eapply lookup_lt_Some.
Qed.

Lemma menu_children_app h h' menu :
  truthy (menu_children h menu) = true →
  menu_children (h ++ h') menu = menu_children h menu.
Proof.
  intros H. destruct (menu_children_truthy _ _ H) as (lm & mf & lp & pf
    & -> & Hlm & Hmf & Hlp & Hpf).
  revert Hpf. unfold menu_children. rewrite !opt_prop_ref. intros Hpf.
  rewrite (get_prop_app h) by by eapply lookup_lt_Some.
  rewrite (get_prop_obj _ _ _ _ _ Hlm Hmf), !opt_prop_ref.
  rewrite (get_prop_app h) by by eapply lookup_lt_Some. done.
Qed.

Lemma child_list_app h h' v :
  (∀ c, c ∈ h' → is_array_cell c = false) →
  child_list (h ++ h') v = child_list h v.
Proof.
  intros Hh'. destruct v as [| | | | |l|?]; try reflexivity. unfold child_list.
  destruct (decide (l < List.length h)) as [Hl|Hl].
  - by rewrite lookup_app_l.
  - rewrite lookup_app_r by lia. rewrite (lookup_ge_None_2 h) by lia.
    destruct (h' !! (l - List.length h)) as [c|] eqn:E; [|done].
    apply list_elem_of_lookup_2 in E. apply Hh' in E. by destruct c.
Qed.

Lemma truthy_not_nullish v : truthy v = true → nullish v = false.
Proof. by destruct v. Qed.

Lemma opt_prop_truthy_base h v k :
  truthy (opt_prop h v k) = true → nullish v = false.
Proof. unfold opt_prop. by destruct (nullish v). Qed.

Lemma editButton_label host label action :
  editButton_fields host label action !! "label" = Some (VStr label).
Proof. reflexivity. Qed.

Lemma removeButton_label host action :
  removeButton_fields host action !! "label"
  = Some (VStr (str "Remove Local Edit")).
Proof. reflexivity. Qed.

(** The wrapper up to the guard. *)
Lemma menu_wrapper_guard host menuComponent props s menu h1 :
  apply_host host menuComponent [props] (heap s) = HostReturn menu h1 →
  menu_wrapper host menuComponent props s
  = if truthy (menu_message h1 props)
       && negb (strict_eq (author_id h1 (menu_message h1 props))
                          (viewer_id h1 props))
    then (editButton ← make_editButton host (menu_message h1 props);
          removeButton ← make_removeButton host (menu_message h1 props);
          append_buttons menu editButton removeButton;;
          mret menu) (set_heap h1 s)
    else Ok menu (set_heap h1 s).
Proof.
  intros Hcall. unfold menu_wrapper, call_host, menu_message, author_id, viewer_id.
  unfold mbind, M_bind, mret, M_ret. rewrite Hcall. mrun.
  destruct (truthy (opt_prop h1 props "message")) eqn:Hm; [|done].
  rewrite (member_ok _ _ _ (truthy_not_nullish _ Hm)). mrun.
  rewrite (member_ok _ _ _ (opt_prop_truthy_base _ _ _ Hm)). mrun.
  cbn [andb].
  destruct (strict_eq _ _); cbn [negb]; [done|].
  destruct (make_editButton _ _ _) as [e s2| |]; [|done..].
  destruct (make_removeButton _ _ _) as [r s3| |]; [|done..].
  by destruct (append_buttons _ _ _ _).
Qed.

(** C8. When the call's properties carry no message, or the message's
    author id is strictly equal to the viewer's id, the wrapper returns the
    builder's menu and leaves the state as the builder left it, whatever the
    store holds. *)
Theorem menu_wrapper_skips host menuComponent props s menu h1 :
  apply_host host menuComponent [props] (heap s) = HostReturn menu h1 →
  truthy (menu_message h1 props) = false
  ∨ strict_eq (author_id h1 (menu_message h1 props)) (viewer_id h1 props) = true →
  menu_wrapper host menuComponent props s = Ok menu (set_heap h1 s).
Proof.
  intros Hcall Hskip. rewrite (menu_wrapper_guard _ _ _ _ _ _ Hcall).
  destruct Hskip as [-> | ->]; [done|]. by rewrite andb_false_r.
Qed.

Lemma menu_wrapper_skips_witness :
  apply_host demo_host (VRef 7) [VRef 1] (heap self_edited)
    = HostReturn (VRef 4) self_heap
  ∧ messageEdits self_edited !! str "m1" = Some (str "Hello")
  ∧ strict_eq (author_id self_heap (menu_message self_heap (VRef 1)))
              (viewer_id self_heap (VRef 1)) = true
  ∧ menu_wrapper demo_host (VRef 7) (VRef 1) self_edited
    = Ok (VRef 4) (set_heap self_heap self_edited).
Proof.
  split; [reflexivity|]. split; [reflexivity|]. split; [reflexivity|].
  apply (menu_wrapper_skips demo_host (VRef 7) (VRef 1) self_edited (VRef 4) self_heap);
    [reflexivity | right; reflexivity].
Defined.

Lemma set_heap_set_heap h h' s : set_heap h (set_heap h' s) = set_heap h s.
Proof. reflexivity. Qed.

Lemma menu_wrapper_run host menuComponent props s menu h1 k :
  apply_host host menuComponent [props] (heap s) = HostReturn menu h1 →
  is_object h1 (menu_message h1 props) = true →
  strict_eq (author_id h1 (menu_message h1 props)) (viewer_id h1 props) = false →
  message_key h1 (menu_message h1 props) = Some k →
  truthy (menu_children h1 menu) = true →
  ∃ s' c edit remove,
    menu_wrapper host menuComponent props s = Ok menu s'
    ∧ menu_children (heap s') menu = VRef c
    ∧ heap s' !! c
      = Some (CArr (child_list h1 (menu_children h1 menu)
                    ++ edit :: (if truthy (edit_lookup (messageEdits s) k)
                                then [remove] else [])))
    ∧ get_prop (heap s') edit "label"
      = VStr (if truthy (edit_lookup (messageEdits s) k)
              then str "Edit Local Copy" else str "Edit Locally")
    ∧ (truthy (edit_lookup (messageEdits s) k) = true →
       get_prop (heap s') remove "label" = VStr (str "Remove Local Edit"))
    ∧ set_heap (heap s) s' = s.
Proof.
  intros Hcall Hobj Hneq Hk Hch.
  rewrite (menu_wrapper_guard _ _ _ _ _ _ Hcall).
  set (message := menu_message h1 props) in *.
  assert (Hm : truthy message = true).
  { destruct (is_object_inv _ _ Hobj) as (l & f & -> & _). done. }
  rewrite Hm, Hneq. cbn [andb negb].
  destruct (menu_children_truthy _ _ Hch) as (lm & mf & lp & pf
    & -> & Hlm & Hmf & Hlp & Hpf).
  assert (Hlmlen : lm < List.length h1) by by eapply lookup_lt_Some.
  assert (Hlplen : lp < List.length h1) by by eapply lookup_lt_Some.
  set (n := List.length h1) in *.
  set (label := if truthy (edit_lookup (messageEdits s) k)
                then str "Edit Local Copy" else str "Edit Locally").
  set (E := CObj (editButton_fields host label (VRef n))).
  set (h2 := (h1 ++ [CFun (EditAction message); E])%list).
  unfold mbind, M_bind, mret, M_ret.
  rewrite (make_editButton_run host message k (set_heap h1 s))
    by (cbn [heap set_heap]; exact Hk).
  cbn [heap set_heap messageEdits]. fold n label E h2.
  rewrite set_heap_set_heap.
  assert (Hk2 : message_key h2 message = Some k)
    by (subst h2; by rewrite message_key_app).
  rewrite (make_removeButton_run host message k (set_heap h2 s) Hk2).
  cbn [heap set_heap messageEdits].
  assert (Hlen2 : List.length h2 = S (S n)).
  { subst h2. rewrite length_app. cbn [List.length]. lia. }
  assert (HE : h2 !! S n = Some E).
  { subst h2. rewrite lookup_app_r by lia.
    by replace (S n - List.length h1) with 1 by lia. }
  assert (Hch2 : menu_children h2 (VRef lm) = menu_children h1 (VRef lm))
    by (subst h2; by apply menu_children_app).
  assert (Hcl2 : child_list h2 (menu_children h1 (VRef lm))
                 = child_list h1 (menu_children h1 (VRef lm))).
  { subst h2. apply child_list_app. intros c Hc.
    repeat (apply elem_of_cons in Hc as [->|Hc]; [done|]).
    by apply elem_of_nil in Hc. }
  destruct (truthy (edit_lookup (messageEdits s) k)) eqn:Ht.
  - set (R := CObj (removeButton_fields host (VRef (List.length h2)))).
    set (h3 := (h2 ++ [CFun (RemoveAction message); R])%list).
    assert (HE3 : h3 !! S n = Some E).
    { subst h3. rewrite lookup_app_l by lia. done. }
    assert (HR3 : h3 !! S (List.length h2) = Some R).
    { subst h3. rewrite lookup_app_r by lia.
      by replace (S (List.length h2) - List.length h2) with 1 by lia. }
    assert (Hch3 : menu_children h3 (VRef lm) = menu_children h1 (VRef lm)).
    { subst h3. rewrite menu_children_app; [done|]. by rewrite Hch2. }
    assert (Hcl3 : child_list h3 (menu_children h1 (VRef lm))
                   = child_list h1 (menu_children h1 (VRef lm))).
    { rewrite <- Hcl2. subst h3. apply child_list_app. intros c Hc.
      repeat (apply elem_of_cons in Hc as [->|Hc]; [done|]).
      by apply elem_of_nil in Hc. }
    destruct (append_buttons_run (VRef lm) (VRef (S n))
                (VRef (S (List.length h2))) (set_heap h3 (set_heap h2 s)))
      as (s' & lp' & pf' & c & Hrun & Hp' & Hlp' & _ & Hc1 & Hc2 & Hfr & Heta).
    { cbn [heap set_heap]. by rewrite Hch3. }
    apply (f_equal (set_heap (heap s))) in Heta.
    rewrite !set_heap_set_heap, state_eta in Heta.
    cbn [heap set_heap] in *. rewrite Hrun.
    assert (lp' = lp) as ->.
    { revert Hp'. rewrite opt_prop_ref. subst h3 h2.
      rewrite <- app_assoc, get_prop_app by done.
      rewrite (get_prop_obj _ _ _ _ _ Hlm Hmf). congruence. }
    exists s', c, (VRef (S n)), (VRef (S (List.length h2))).
    split; [done|]. split; [done|]. split.
    { rewrite Hc2, Hch3, Hcl3. done. }
    split; [|split].
    + destruct (Hfr _ _ HE3) as [HE'|[?|[a ?]]]; [|lia|done].
      apply (get_prop_obj _ _ _ _ _ HE'). apply editButton_label.
    + intros _. destruct (Hfr _ _ HR3) as [HR'|[?|[a ?]]]; [|lia|done].
      apply (get_prop_obj _ _ _ _ _ HR'). apply removeButton_label.
    + exact Heta.
  - destruct (append_buttons_run (VRef lm) (VRef (S n)) VNull (set_heap h2 s))
      as (s' & lp' & pf' & c & Hrun & Hp' & Hlp' & _ & Hc1 & Hc2 & Hfr & Heta).
    { cbn [heap set_heap]. by rewrite Hch2. }
    apply (f_equal (set_heap (heap s))) in Heta.
    rewrite !set_heap_set_heap, state_eta in Heta.
    cbn [heap set_heap] in *. rewrite Hrun.
    assert (lp' = lp) as ->.
    { revert Hp'. rewrite opt_prop_ref. subst h2.
      rewrite get_prop_app by done.
      rewrite (get_prop_obj _ _ _ _ _ Hlm Hmf). congruence. }
    exists s', c, (VRef (S n)), VNull.
    split; [done|]. split; [done|]. split.
    { rewrite Hc2, Hch2, Hcl2. done. }
    split; [|split].
    + destruct (Hfr _ _ HE) as [HE'|[?|[a ?]]]; [|lia|done].
      apply (get_prop_obj _ _ _ _ _ HE'). apply editButton_label.
    + discriminate.
    + exact Heta.
Qed.

(** C1, as the code has it. For a call whose properties carry a message
    object not written by the viewer, and whose builder returns a menu with a
    truthy children value, the wrapper returns that menu with its children an
    array: the former children (the elements of the former array, or the
    single former descriptor) followed by the added actions.  With no
    override stored under the message's id, and an id that is not the name
    of a member of [Object.prototype], one action is added, labelled
    "Edit Locally"; with a non-empty override stored two are added, labelled
    "Edit Local Copy" and "Remove Local Edit" in this order.  The store is
    not touched. *)
Theorem menu_wrapper_appends host menuComponent props s menu h1 k :
  apply_host host menuComponent [props] (heap s) = HostReturn menu h1 →
  is_object h1 (menu_message h1 props) = true →
  strict_eq (author_id h1 (menu_message h1 props)) (viewer_id h1 props) = false →
  message_key h1 (menu_message h1 props) = Some k →
  truthy (menu_children h1 menu) = true →
  ∃ s' c added,
    menu_wrapper host menuComponent props s = Ok menu s'
    ∧ menu_children (heap s') menu = VRef c
    ∧ heap s' !! c
      = Some (CArr (child_list h1 (menu_children h1 menu) ++ added))
    ∧ (messageEdits s !! k = None → k ∉ object_prototype_names →
       labels (heap s') added = [VStr (str "Edit Locally")])
    ∧ (∀ v, messageEdits s !! k = Some v → v ≠ [] →
       labels (heap s') added
       = [VStr (str "Edit Local Copy"); VStr (str "Remove Local Edit")])
    ∧ messageEdits s' = messageEdits s.
Proof.
  intros Hcall Hobj Hneq Hk Hch.
  destruct (menu_wrapper_run _ _ _ _ _ _ _ Hcall Hobj Hneq Hk Hch)
    as (s' & c & edit & remove & Hrun & Hc & Hcell & Hle & Hlr & Heta).
  exists s', c,
    (edit :: (if truthy (edit_lookup (messageEdits s) k) then [remove] else [])).
  repeat (split; [done|]). split; [|split].
  - intros Hnone Hown. rewrite (edit_lookup_None _ _ Hnone Hown) in *.
    cbn [truthy labels fmap list_fmap]. by rewrite Hle.
  - intros v Hv Hne. rewrite (edit_lookup_Some _ _ _ Hv) in *.
    rewrite (nonempty_truthy _ Hne) in *.
    cbn [labels fmap list_fmap]. by rewrite Hle, Hlr.
  - by rewrite <- Heta.
Qed.

Lemma menu_wrapper_appends_witness :
  apply_host demo_host (VRef 7) [VRef 1] (heap demo_edited)
    = HostReturn (VRef 4) demo_heap
  ∧ messageEdits demo_edited !! str "m1" = Some (str "Hello")
  ∧ ∃ s' c added,
      menu_wrapper demo_host (VRef 7) (VRef 1) demo_edited = Ok (VRef 4) s'
      ∧ menu_children (heap s') (VRef 4) = VRef c
      ∧ heap s' !! c
        = Some (CArr (child_list demo_heap (menu_children demo_heap (VRef 4))
                      ++ added))
      ∧ (messageEdits demo_edited !! str "m1" = None →
         str "m1" ∉ object_prototype_names →
         labels (heap s') added = [VStr (str "Edit Locally")])
      ∧ (∀ v, messageEdits demo_edited !! str "m1" = Some v → v ≠ [] →
         labels (heap s') added
         = [VStr (str "Edit Local Copy"); VStr (str "Remove Local Edit")])
      ∧ messageEdits s' = messageEdits demo_edited.
Proof.
  split; [reflexivity|]. split; [reflexivity|].
  apply (menu_wrapper_appends demo_host (VRef 7) (VRef 1) demo_edited (VRef 4)
           demo_heap (str "m1")); reflexivity.
Defined.

(** C1 fails as stated: the message is another user's and has no override,
    the host's builder returns a menu, but that menu has no children, and
    the wrapper returns it with nothing added; the menu and its props are
    the objects they were. *)
Lemma menu_wrapper_bare_menu :
  apply_host demo_host (VRef 7) [VRef 1] (heap bare_state)
    = HostReturn (VRef 4) bare_heap
  ∧ is_object bare_heap (menu_message bare_heap (VRef 1)) = true
  ∧ strict_eq (author_id bare_heap (menu_message bare_heap (VRef 1)))
              (viewer_id bare_heap (VRef 1)) = false
  ∧ messageEdits bare_state !! str "m1" = None
  ∧ match menu_wrapper demo_host (VRef 7) (VRef 1) bare_state with
    | Ok menu s' =>
        menu = VRef 4
        ∧ menu_children (heap s') menu = VUndef
        ∧ heap s' !! 4 = bare_heap !! 4
        ∧ heap s' !! 5 = Some (CObj ∅)
    | _ => False
    end.
Proof. vm_compute. repeat split. Qed.

(** ** The store invariant *)

Lemma lands_bind {A B} (m : M A) (f : A → M B) s s' :
  lands (m ≫= f) s s' →
  (∃ e, m s = Throw e s') ∨ (∃ a s1, m s = Ok a s1 ∧ lands (f a) s1 s').
Proof.
  unfold lands, mbind, M_bind. destruct (m s) as [a s1|e s1|] eqn:E.
  - intros H. right. by exists a, s1.
  - intros [[b H]|[e' H]]; [done|]. left. exists e'. congruence.
  - intros [[b H]|[e' H]]; done.
Qed.

Lemma keeps_same {A} (m : M A) :
  (∀ s s', lands m s s' → messageEdits s' = messageEdits s) → keeps m.
Proof. intros H s s' Hl Hs. by rewrite (H s s' Hl). Qed.

Lemma keeps_bind {A B} (m : M A) (f : A → M B) :
  keeps m → (∀ a, keeps (f a)) → keeps (m ≫= f).
Proof.
  intros Hm Hf s s' Hl Hs.
  destruct (lands_bind _ _ _ _ Hl) as [[e He]|(a & s1 & Ha & Hl')].
  - apply (Hm s s'); [right; eauto | done].
  - apply (Hf a s1 s'); [done|]. apply (Hm s s1); [left; eauto | done].
Qed.

Lemma keeps_ret {A} (a : A) : keeps (mret a).
Proof. apply keeps_same. intros s s' [[b H]|[e H]]; by inversion H. Qed.

Lemma keeps_throw {A} e : keeps (@throw A e).
Proof. apply keeps_same. intros s s' [[b H]|[e' H]]; by inversion H. Qed.

Lemma keeps_unmodelled {A} : keeps (@unmodelled A).
Proof. intros s s' [[b H]|[e' H]]; by inversion H. Qed.

Lemma keeps_gets {A} (f : state → A) : keeps (gets f).
Proof. apply keeps_same. intros s s' [[b H]|[e H]]; by inversion H. Qed.

Lemma keeps_modify (f : state → state) :
  (∀ s, store_ok (messageEdits s) → store_ok (messageEdits (f s))) →
  keeps (modify f).
Proof. intros Hf s s' [[b H]|[e H]] Hs; inversion H; subst. by apply Hf. Qed.

Lemma keeps_try_catch {A} (body : M A) (handler : exn → M A) :
  keeps body → (∀ e, keeps (handler e)) → keeps (try_catch body handler).
Proof.
  intros Hb Hh s s' Hl Hs. unfold lands, try_catch in Hl.
  destruct (body s) as [a s1|e s1|] eqn:E.
  - apply (Hb s s'); [|done]. destruct Hl as [[b H]|[e H]]; inversion H; subst.
    left; eauto.
  - apply (Hh e s1 s'); [done|]. apply (Hb s s1); [right; eauto | done].
  - destruct Hl as [[b H]|[e H]]; done.
Qed.

Lemma keeps_heap_only {A} (m : M A) :
  (∀ s, match m s with
        | Ok _ s' | Throw _ s' => ∃ h, s' = set_heap h s
        | Unmodelled => True
        end) →
  keeps m.
Proof.
  intros H. apply keeps_same. intros s s' Hl. specialize (H s).
  destruct Hl as [[a E]|[e E]]; rewrite E in H; by destruct H as [h ->].
Qed.

Lemma keeps_alloc c : keeps (alloc c).
Proof. apply keeps_heap_only. intros s. by eexists. Qed.

Lemma keeps_member v k : keeps (member v k).
Proof.
  unfold member. destruct (nullish v); [apply keeps_throw | apply keeps_gets].
Qed.

Lemma keeps_opt_member v k : keeps (opt_member v k).
Proof. apply keeps_gets. Qed.

Lemma keeps_set_member v k x : keeps (set_member v k x).
Proof.
  unfold set_member. destruct (nullish v); [apply keeps_throw|].
  destruct v; try apply keeps_unmodelled.
  apply keeps_heap_only. intros s. destruct (heap s !! l) as [[| |]|]; eauto.
Qed.

Lemma keeps_push v x : keeps (push v x).
Proof.
  unfold push. destruct v; try apply keeps_unmodelled.
  apply keeps_heap_only. intros s. destruct (heap s !! l) as [[| |]|]; eauto.
Qed.

Lemma keeps_set_index v i x : keeps (set_index v i x).
Proof.
  unfold set_index. destruct v; try apply keeps_unmodelled.
  apply keeps_heap_only. intros s. destruct (heap s !! l) as [[| |]|]; eauto.
Qed.

Lemma keeps_to_key v : keeps (to_key v).
Proof.
  unfold to_key. destruct (property_key v);
    [apply keeps_ret | apply keeps_unmodelled].
Qed.

Lemma keeps_log_info msg : keeps (log_info msg).
Proof. by apply keeps_modify. Qed.

Lemma keeps_log_error msg e : keeps (log_error msg e).
Proof. by apply keeps_modify. Qed.

Lemma keeps_invoke_undo u : keeps (invoke_undo u).
Proof. by apply keeps_modify. Qed.

Lemma keeps_call_host host f args : keeps (call_host host f args).
Proof.
  apply keeps_heap_only. intros s. unfold call_host.
  destruct (apply_host host f args (heap s)); eauto.
Qed.

Lemma keeps_before host name target callback :
  keeps (before host name target callback).
Proof.
  unfold before. destruct (before_rejects host name target);
    [apply keeps_throw|].
  apply keeps_same. intros s s' [[b H]|[e H]]; by inversion H.
Qed.

Lemma keeps_delete_key k :
  keeps (modify (λ s, set_messageEdits (delete k (messageEdits s)) s)).
Proof. apply keeps_modify. intros s. apply store_ok_delete. Qed.

Lemma keeps_delete_all :
  keeps (modify (λ s, set_messageEdits (delete_all_keys (messageEdits s)) s)).
Proof.
  apply keeps_modify. intros s _. cbn [messageEdits set_messageEdits].
  rewrite delete_all_keys_empty. apply store_ok_empty.
Qed.

Lemma keeps_assign_key k t :
  ¬ blank t →
  keeps (modify (λ s, set_messageEdits (assign_edit (messageEdits s) k t) s)).
Proof. intros Ht. apply keeps_modify. intros s. by apply store_ok_assign. Qed.

Create HintDb keeps.
#[local] Hint Resolve keeps_ret keeps_throw keeps_unmodelled keeps_gets
  keeps_alloc keeps_member keeps_opt_member keeps_set_member keeps_push
  keeps_set_index keeps_to_key keeps_log_info keeps_log_error
  keeps_invoke_undo keeps_call_host keeps_before keeps_delete_key
  keeps_delete_all keeps_assign_key : keeps.

Ltac keeps_auto :=
  repeat first
    [ apply keeps_bind; [|intros ?]
    | apply keeps_try_catch; [|intros ?]
    | solve [eauto with keeps]
    | apply keeps_modify; solve [auto]
    | match goal with
      | |- keeps (if ?b then _ else _) => destruct b
      | |- keeps (match ?x with _ => _ end) => destruct x
      end ].

Lemma keeps_render_hook this : keeps (render_hook this).
Proof. unfold render_hook. keeps_auto. Qed.

Lemma keeps_menu_hook args : keeps (menu_hook args).
Proof. unfold menu_hook. keeps_auto. Qed.

Lemma keeps_menu_wrapper host menuComponent props :
  keeps (menu_wrapper host menuComponent props).
Proof.
  unfold menu_wrapper, make_editButton, make_removeButton, append_buttons.
  keeps_auto.
Qed.

Lemma keeps_edit_action message : keeps (edit_action message).
Proof. unfold edit_action. keeps_auto. Qed.

Lemma keeps_on_confirm host message t : keeps (on_confirm host message t).
Proof. unfold on_confirm. case_bool_decide; keeps_auto. Qed.

Lemma keeps_remove_action message : keeps (remove_action message).
Proof. unfold remove_action. keeps_auto. Qed.

Lemma keeps_showLocalEdits : keeps showLocalEdits.
Proof. unfold showLocalEdits. keeps_auto. Qed.

Lemma keeps_clearAllEdits : keeps clearAllEdits.
Proof. unfold clearAllEdits. keeps_auto. Qed.

Lemma keeps_onLoad host : keeps (onLoad host).
Proof. unfold onLoad, setup. keeps_auto. Qed.

Lemma keeps_onUnload : keeps onUnload.
Proof. unfold onUnload. keeps_auto. Qed.

Lemma step_store_ok host s s' :
  step host s s' → store_ok (messageEdits s) → store_ok (messageEdits s').
Proof.
  destruct 1 as [s s' H|s s' H|this s s' H|args s s' H|mc props s s' H
                |message s s' H|message t s s' H|message s s' H|s s' H
                |s s' H|h s]; try done.
  - by apply (keeps_onLoad host s s').
  - by apply (keeps_onUnload s s').
  - by apply (keeps_render_hook this s s').
  - by apply (keeps_menu_hook args s s').
  - by apply (keeps_menu_wrapper host mc props s s').
  - by apply (keeps_edit_action message s s').
  - by apply (keeps_on_confirm host message t s s').
  - by apply (keeps_remove_action message s s').
  - by apply (keeps_showLocalEdits s s').
  - by apply (keeps_clearAllEdits s s').
Qed.

Lemma reachable_store_ok host s : reachable host s → store_ok (messageEdits s).
Proof.
  intros (h & g & Hrtc).
  assert (Hinit : store_ok (messageEdits (initial h g))) by apply store_ok_empty.
  revert Hinit. induction Hrtc as [|s1 s2 s3 Hstep _ IH]; [done|].
  intros H1. apply IH. by eapply step_store_ok.
Qed.

(** C5. In every reachable state an id is present in the store exactly when
    the text stored under it has a non-empty trimmed form; a text made of
    white space only is never stored. *)
Theorem store_invariant host s :
  reachable host s →
  (∀ k, is_Some (messageEdits s !! k)
        ↔ ∃ v, messageEdits s !! k = Some v ∧ trim v ≠ [])
  ∧ (∀ k v, messageEdits s !! k = Some v → forallb is_white v = false).
Proof.
  intros [Hok _]%reachable_store_ok. split.
  - intros k. split.
    + intros [v Hv]. exists v. split; [done|]. by apply (Hok k v).
    + intros (v & Hv & _). by exists v.
  - intros k v Hv. apply not_true_is_false. intros Hw.
    by apply (Hok k v Hv), blank_iff_all_white.
Qed.

Lemma store_invariant_witness :
  reachable demo_host demo_confirmed
  ∧ (∀ k, is_Some (messageEdits demo_confirmed !! k)
          ↔ ∃ v, messageEdits demo_confirmed !! k = Some v ∧ trim v ≠ [])
  ∧ (∀ k v, messageEdits demo_confirmed !! k = Some v →
            forallb is_white v = false).
Proof.
  assert (Hr : reachable demo_host demo_confirmed).
  { exists demo_heap, ∅. eapply rtc_l; [|apply rtc_refl].
    apply (step_on_confirm demo_host (VRef 2) (str "Hello")).
    left. exists (). vm_compute. reflexivity. }
  split; [exact Hr|]. exact (store_invariant demo_host demo_confirmed Hr).
Defined.

(** X21. No operation of the module gives the store a property of its own
    named [__proto__]: in every reachable state it has none, and reading
    the store at that id yields the prototype object it inherits. *)
Theorem store_never_owns_proto host s :
  reachable host s →
  messageEdits s !! str "__proto__" = None
  ∧ edit_lookup (messageEdits s) (str "__proto__")
    = VProtoMember (str "__proto__").
Proof.
  intros [_ Hp]%reachable_store_ok. split; [done|].
  apply edit_lookup_inherited; [done|]. is_a_member.
Qed.

Lemma store_never_owns_proto_witness :
  reachable demo_host proto_confirmed
  ∧ messageEdits proto_confirmed !! str "__proto__" = None
  ∧ edit_lookup (messageEdits proto_confirmed) (str "__proto__")
    = VProtoMember (str "__proto__").
Proof.
  assert (Hr : reachable demo_host proto_confirmed).
  { exists (named_heap (str "__proto__")), ∅. eapply rtc_l; [|apply rtc_refl].
    apply (step_on_confirm demo_host (VRef 2) (str "Hello")).
    left. exists (). vm_compute. reflexivity. }
  split; [exact Hr|].
  exact (store_never_owns_proto demo_host proto_confirmed Hr).
Defined.

(** ** The lifecycle *)

Lemma onUnload_run s :
  onUnload s
  = Ok () (State (heap s) (delete_all_keys (messageEdits s)) None None
             (delete "clearAllEdits" (delete "showLocalEdits" (globals s)))
             (patches s)
             (undone s ++ option_list (unpatchRender s)
                       ++ option_list (unpatchContextMenu s))%list
             (dialogs s)
             (logs s ++ [LogInfo (str "Local Message Editor plugin unloaded");
                         LogInfo (str "Message edits cleared and patches removed")])%list).
Proof.
  destruct s as [h m [u|] [u'|] g p un d l]; unfold onUnload; mgo;
    unfold log_info, modify; mrun; cbn [option_list];
    rewrite ?app_nil_r, <- ?app_assoc; reflexivity.
Qed.

(** C9. [onUnload] invokes each stored undo handle once, in order, and
    leaves both handles null, the store empty and neither debug function
    registered; run again, it invokes no undo handle.  This holds from any
    state, whichever handles the activation managed to store. *)
Theorem onUnload_teardown s :
  ∃ s1 s2,
    onUnload s = Ok () s1
    ∧ undone s1 = (undone s ++ option_list (unpatchRender s)
                            ++ option_list (unpatchContextMenu s))%list
    ∧ unpatchRender s1 = None
    ∧ unpatchContextMenu s1 = None
    ∧ messageEdits s1 = ∅
    ∧ size (messageEdits s1) = 0
    ∧ globals s1 !! "showLocalEdits" = None
    ∧ globals s1 !! "clearAllEdits" = None
    ∧ onUnload s1 = Ok () s2
    ∧ undone s2 = undone s1.
Proof.
  eexists _, _. split; [apply onUnload_run|].
  cbn [undone unpatchRender unpatchContextMenu messageEdits globals].
  rewrite delete_all_keys_empty.
  do 7 (split; [first [ reflexivity | apply lookup_delete_eq
                      | by rewrite lookup_delete_ne, lookup_delete_eq ]|]).
  split; [apply onUnload_run|].
  cbn [undone unpatchRender unpatchContextMenu option_list].
  by rewrite !app_nil_r.
Qed.

(** When the lookup of the context-menu module answers [undefined] or
    [null], the destructuring on line 40 throws: [onLoad] catches the error,
    logs it and returns without having registered a global. *)
Lemma onLoad_menu_lookup_nullish host s :
  nullish (findByProps host [str "openContextMenuLazy"; str "closeContextMenu"])
    = true →
  ∃ s' e, onLoad host s = Ok () s'
          ∧ globals s' = globals s
          ∧ unpatchContextMenu s' = unpatchContextMenu s
          ∧ last (logs s') = Some (LogError (str "Failed to setup message editor:") e).
Proof.
  intros Hn.
  assert (Hm : ∀ s0, member (findByProps host
                 [str "openContextMenuLazy"; str "closeContextMenu"])
                 "getByProps" s0 = Throw TypeError s0).
  { intros s0. unfold member. by rewrite Hn. }
  unfold onLoad, setup, before.
  unfold mbind, M_bind, mret, M_ret, try_catch. mrun.
  destruct (truthy (coalesce _ _)).
  - unfold member at 1. destruct (nullish (coalesce _ _)); mrun.
    + eexists _, _. split; [reflexivity|]. mrun. by rewrite last_snoc.
    + destruct (before_rejects host _ _); mrun; rewrite ?Hm;
        (eexists _, _; split; [reflexivity|]); mrun; by rewrite last_snoc.
  - rewrite Hm. eexists _, _. split; [reflexivity|]. mrun. by rewrite last_snoc.
Qed.

(** C2, on the code. On a host that has the component to patch but no
    context-menu module, [onLoad] installs the render hook, then fails on
    the menu lookup and ends in the error handler: neither debug function is
    registered. *)
Theorem onLoad_without_menu_module :
  findByProps nomenu_host [str "openContextMenuLazy"; str "closeContextMenu"]
    = VUndef
  ∧ onLoad nomenu_host (initial nomenu_heap ∅) = Ok () nomenu_loaded
  ∧ unpatchRender nomenu_loaded = Some 0
  ∧ unpatchContextMenu nomenu_loaded = None
  ∧ globals nomenu_loaded !! "showLocalEdits" = None
  ∧ globals nomenu_loaded !! "clearAllEdits" = None.
Proof. vm_compute. repeat split. Qed.

(** With both modules present the same [onLoad] installs both hooks and
    registers both debug functions. *)
Example onLoad_full_host :
  match onLoad full_host (initial full_heap ∅) with
  | Ok _ s' =>
      unpatchRender s' = Some 0
      ∧ unpatchContextMenu s' = Some 1
      ∧ heap s' !! 6 = Some (CFun ShowLocalEdits)
      ∧ globals s' !! "showLocalEdits" = Some (VRef 6)
      ∧ heap s' !! 7 = Some (CFun ClearAllEdits)
      ∧ globals s' !! "clearAllEdits" = Some (VRef 7)
  | _ => False
  end.
Proof. vm_compute. repeat split. Qed.

(** ** The scenarios of the specification, run on the sample state *)

Example trim_strips_both_ends :
  trim (str "  a b  ") = str "a b"
  ∧ trim [9; 10; 160; 8232; 12288; 65279]%N = []
  ∧ trim (str "") = [].
Proof. vm_compute. repeat split. Qed.

(** Message [m1] of user [u2], viewer [u1], no override: the menu gets the
    single action "Edit Locally"; confirming its dialog with [Hello] files
    the override, and the next render shows it. *)
Example scenario_edit :
  match menu_wrapper demo_host (VRef 7) (VRef 1) demo_state with
  | Ok menu s1 =>
      labels (heap s1) (child_list (heap s1) (menu_children (heap s1) menu))
        = [VUndef; VStr (str "Edit Locally")]
      ∧ match on_confirm demo_host (VRef 2) (str "Hello") s1 with
        | Ok _ s2 =>
            messageEdits s2 !! str "m1" = Some (str "Hello")
            ∧ match render_hook (VRef 0) s2 with
              | Ok _ s3 => render_content (heap s3) (VRef 0) = VStr (str "Hello")
                           ∧ get_prop (heap s3) (VRef 2) "content"
                             = VStr (str "original")
              | _ => False
              end
        | _ => False
        end
  | _ => False
  end.
Proof. vm_compute. repeat split. Qed.

(** With the override in place the menu gets "Edit Local Copy" and "Remove
    Local Edit"; the remove action drops the override, and the render shows
    the original content; [onUnload] then leaves an empty store. *)
Example scenario_remove :
  match menu_wrapper demo_host (VRef 7) (VRef 1) demo_edited with
  | Ok menu s1 =>
      labels (heap s1) (child_list (heap s1) (menu_children (heap s1) menu))
        = [VUndef; VStr (str "Edit Local Copy"); VStr (str "Remove Local Edit")]
      ∧ match remove_action (VRef 2) s1 with
        | Ok _ s2 =>
            messageEdits s2 !! str "m1" = None
            ∧ match render_hook (VRef 0) s2 with
              | Ok _ s3 =>
                  render_content (heap s3) (VRef 0) = VStr (str "original")
                  ∧ match onUnload s3 with
                    | Ok _ s4 => size (messageEdits s4) = 0
                    | _ => False
                    end
              | _ => False
              end
        | _ => False
        end
  | _ => False
  end.
Proof. vm_compute. repeat split. Qed.

(** A single child that is not a list is wrapped in a new array before the
    action is pushed. *)
Example scenario_single_child :
  match menu_wrapper demo_host (VRef 7) (VRef 1)
          (initial (<[5 := CObj {[ "children" := VStr (str "Copy Text") ]}]> demo_heap) ∅)
  with
  | Ok menu s1 =>
      isArray (heap s1) (menu_children (heap s1) menu) = true
      ∧ child_list (heap s1) (menu_children (heap s1) menu)
        = [VStr (str "Copy Text"); VRef 9]
      ∧ get_prop (heap s1) (VRef 9) "label" = VStr (str "Edit Locally")
  | _ => False
  end.
Proof. vm_compute. repeat split. Qed.

(** A message whose id is the string [constructor], with nothing stored:
    the store answers with the constructor it inherits, so the menu gets
    "Edit Local Copy" and "Remove Local Edit", and the dialog of the edit
    action is pre-filled with that function. *)
Example scenario_inherited_name :
  match menu_wrapper demo_host (VRef 7) (VRef 1)
          (named_state (str "constructor"))
  with
  | Ok menu s1 =>
      messageEdits s1 = ∅
      ∧ labels (heap s1) (child_list (heap s1) (menu_children (heap s1) menu))
        = [VUndef; VStr (str "Edit Local Copy"); VStr (str "Remove Local Edit")]
      ∧ match edit_action (VRef 2) s1 with
        | Ok _ s2 =>
            (λ config, get_prop (heap s2) config "initialValue") <$> dialogs s2
            = [VProtoMember (str "constructor")]
        | _ => False
        end
  | _ => False
  end.
Proof. vm_compute. repeat split. Qed.

Open Scope list_scope.

(** ** More on the dialog confirmation *)

(** The whole effect of [on_confirm]. *)
Lemma on_confirm_run host message t k s :
  message_key (heap s) message = Some k →
  on_confirm host message t s
  = Ok () (State (heap s ++ confirm_cells host)
             (if bool_decide (trim t = []) then delete k (messageEdits s)
              else assign_edit (messageEdits s) k t)
             (unpatchRender s) (unpatchContextMenu s) (globals s) (patches s)
             (undone s) (dialogs s) (logs s ++ confirm_logs host t k)).
Proof.
  intros [Hn Hk]%message_key_Some. destruct s as [h m ur uc g p un d l].
  cbn [heap] in Hk. unfold on_confirm, confirm_cells, confirm_logs.
  case_bool_decide; mgo; destruct (refresh host); mrun;
    unfold log_info, modify; mrun;
    rewrite ?app_nil_r, <- ?app_assoc; reflexivity.
Qed.

(** X1. Confirming or removing the edit of one message leaves the override
    of every other message as it was. *)
Theorem edits_are_per_message host message t k k' s :
  message_key (heap s) message = Some k →
  k' ≠ k →
  ∃ s1 s2,
    on_confirm host message t s = Ok () s1
    ∧ remove_action message s = Ok () s2
    ∧ messageEdits s1 !! k' = messageEdits s !! k'
    ∧ messageEdits s2 !! k' = messageEdits s !! k'.
Proof.
  intros Hk Hne.
  destruct (remove_action_edits message k s Hk) as (s2 & Hrun2 & He2).
  eexists _, s2. split; [by apply on_confirm_run|]. split; [done|].
  cbn [messageEdits]. rewrite He2. split.
  - case_bool_decide; [by rewrite lookup_delete_ne | by apply assign_edit_other].
  - by rewrite lookup_delete_ne.
Qed.

Lemma edits_are_per_message_witness :
  message_key (heap demo_edited) (VRef 3) = Some (str "u2")
  ∧ str "m1" ≠ str "u2"
  ∧ ∃ s1 s2,
      on_confirm demo_host (VRef 3) (str "Bye") demo_edited = Ok () s1
      ∧ remove_action (VRef 3) demo_edited = Ok () s2
      ∧ messageEdits s1 !! str "m1" = messageEdits demo_edited !! str "m1"
      ∧ messageEdits s2 !! str "m1" = messageEdits demo_edited !! str "m1".
Proof.
  split; [reflexivity|]. split; [by vm_compute|].
  apply (edits_are_per_message demo_host (VRef 3) (str "Bye") (str "u2")
           (str "m1") demo_edited); [reflexivity | by vm_compute].
Defined.

Lemma last_snoc2 {A} (l : list A) a b : last (l ++ [a; b]) = Some b.
Proof.
  change (l ++ [a; b])%list with (l ++ [a] ++ [b])%list.
  rewrite app_assoc. apply last_snoc.
Qed.

(** X2. When scheduling the refresh throws, the confirmation still returns:
    the store has been updated as the assignment or the delete leaves it,
    and the last log line is the fallback notice. *)
Theorem confirm_survives_refresh_failure host message t k e s :
  message_key (heap s) message = Some k →
  refresh host = RefreshThrows e →
  ∃ s', on_confirm host message t s = Ok () s'
        ∧ messageEdits s'
          = (if bool_decide (blank t) then delete k (messageEdits s)
             else assign_edit (messageEdits s) k t)
        ∧ last (logs s')
          = Some (LogInfo (str "Edit saved, may need to scroll to see changes")).
Proof.
  intros Hk Hr. eexists. split; [by apply on_confirm_run|].
  cbn [messageEdits logs]. unfold confirm_logs, blank.
  rewrite Hr. split; [done|]. apply last_snoc2.
Qed.

Lemma confirm_survives_refresh_failure_witness :
  message_key (heap demo_state) (VRef 2) = Some (str "m1")
  ∧ refresh flaky_host = RefreshThrows TypeError
  ∧ ∃ s', on_confirm flaky_host (VRef 2) (str "Hello") demo_state = Ok () s'
          ∧ messageEdits s'
            = (if bool_decide (blank (str "Hello"))
               then delete (str "m1") (messageEdits demo_state)
               else assign_edit (messageEdits demo_state) (str "m1") (str "Hello"))
          ∧ last (logs s')
            = Some (LogInfo (str "Edit saved, may need to scroll to see changes")).
Proof.
  split; [reflexivity|]. split; [reflexivity|].
  apply (confirm_survives_refresh_failure flaky_host (VRef 2) (str "Hello")
           (str "m1") TypeError demo_state); reflexivity.
Defined.

(** X3. The last confirmation wins: on a store that has no property of
    its own named [__proto__] (every reachable store), confirming a
    message's dialog twice leaves the store that the second confirmation
    alone would leave, whatever the first text was. *)
Theorem confirm_twice host message t1 t2 k s :
  is_object (heap s) message = true →
  message_key (heap s) message = Some k →
  messageEdits s !! str "__proto__" = None →
  ∃ s1 s2 s2',
    on_confirm host message t1 s = Ok () s1
    ∧ on_confirm host message t2 s1 = Ok () s2
    ∧ on_confirm host message t2 s = Ok () s2'
    ∧ messageEdits s2 = messageEdits s2'.
Proof.
  intros Hobj Hk Hown.
  pose proof (on_confirm_run host message t1 k s Hk) as H1.
  eexists _, _, _. split; [exact H1|].
  split; [apply on_confirm_run; cbn [heap]; by rewrite message_key_app|].
  split; [by apply on_confirm_run|].
  cbn [messageEdits]. destruct (decide (k = str "__proto__")) as [->|Hne].
  - rewrite (delete_id (messageEdits s)) by done.
    rewrite !(assign_edit_proto (messageEdits s)) by done.
    repeat case_bool_decide;
      by rewrite ?delete_id, ?assign_edit_proto by done.
  - rewrite !assign_edit_insert by done.
    repeat case_bool_decide;
      by rewrite ?delete_delete_eq, ?delete_insert_eq, ?insert_delete_eq,
           ?insert_insert_eq.
Qed.

Lemma confirm_twice_witness :
  is_object (heap demo_state) (VRef 2) = true
  ∧ message_key (heap demo_state) (VRef 2) = Some (str "m1")
  ∧ messageEdits demo_state !! str "__proto__" = None
  ∧ ∃ s1 s2 s2',
      on_confirm demo_host (VRef 2) (str "first") demo_state = Ok () s1
      ∧ on_confirm demo_host (VRef 2) (str "second") s1 = Ok () s2
      ∧ on_confirm demo_host (VRef 2) (str "second") demo_state = Ok () s2'
      ∧ messageEdits s2 = messageEdits s2'.
Proof.
  split; [reflexivity|]. split; [reflexivity|]. split; [reflexivity|].
  apply (confirm_twice demo_host (VRef 2) (str "first") (str "second")
           (str "m1") demo_state); reflexivity.
Defined.

(** ** The debug functions *)

Lemma showLocalEdits_run s :
  showLocalEdits s
  = Ok (messageEdits s)
       (set_logs (logs s ++ [LogInfo (count_message (size (messageEdits s)));
                             ConsoleLog (messageEdits s)]) s).
Proof.
  unfold showLocalEdits, count_message. mgo. unfold gets. mrun.
  by rewrite <- app_assoc.
Qed.

Lemma clearAllEdits_run s :
  clearAllEdits s
  = Ok () (set_logs (logs s ++ [LogInfo (str "Cleared all local message edits")])
             (set_messageEdits ∅ s)).
Proof.
  unfold clearAllEdits. mgo. unfold log_info, modify. mrun.
  by rewrite delete_all_keys_empty.
Qed.

(** X4. The count that [showLocalEdits] reports follows the confirmations:
    a text that is not blank adds one override when the message had none
    and its id is not [__proto__], and keeps the count otherwise; a blank
    text takes one away when there was one.  [showLocalEdits] returns the
    store and leaves it as it is. *)
Theorem count_after_confirm host message t k s :
  message_key (heap s) message = Some k →
  ∃ s1 s2,
    on_confirm host message t s = Ok () s1
    ∧ showLocalEdits s1 = Ok (messageEdits s1) s2
    ∧ messageEdits s2 = messageEdits s1
    ∧ size (messageEdits s1) = count_after (messageEdits s) k t
    ∧ logs s2 = (logs s1 ++ [LogInfo (count_message (count_after (messageEdits s) k t));
                             ConsoleLog (messageEdits s1)])%list.
Proof.
  intros Hk. eexists _, _. split; [by apply on_confirm_run|].
  split; [apply showLocalEdits_run|]. cbn [messageEdits logs set_logs].
  split; [done|].
  assert (Hsize : size (if bool_decide (trim t = [])
                        then delete k (messageEdits s)
                        else assign_edit (messageEdits s) k t)
                  = count_after (messageEdits s) k t).
  { unfold count_after. case_bool_decide.
    - rewrite map_size_delete. by destruct (messageEdits s !! k).
    - destruct (messageEdits s !! k) as [v|] eqn:E.
      + rewrite (assign_edit_own _ _ _ _ E), map_size_insert. by rewrite E.
      + case_bool_decide as Hp.
        * subst k. by rewrite assign_edit_proto.
        * rewrite assign_edit_insert, map_size_insert by done. by rewrite E. }
  by rewrite Hsize.
Qed.

Lemma count_after_confirm_witness :
  message_key (heap demo_state) (VRef 2) = Some (str "m1")
  ∧ count_message (count_after (messageEdits demo_state) (str "m1") (str "Hello"))
    = str "Currently have 1 local message edits"
  ∧ ∃ s1 s2,
      on_confirm demo_host (VRef 2) (str "Hello") demo_state = Ok () s1
      ∧ showLocalEdits s1 = Ok (messageEdits s1) s2
      ∧ messageEdits s2 = messageEdits s1
      ∧ size (messageEdits s1)
        = count_after (messageEdits demo_state) (str "m1") (str "Hello")
      ∧ logs s2
        = (logs s1 ++ [LogInfo (count_message
                                  (count_after (messageEdits demo_state)
                                               (str "m1") (str "Hello")));
                       ConsoleLog (messageEdits s1)])%list.
Proof.
  split; [reflexivity|]. split; [by vm_compute|].
  apply (count_after_confirm demo_host (VRef 2) (str "Hello") (str "m1")
           demo_state); reflexivity.
Defined.

(** X5. [clearAllEdits] empties the store from any state and touches
    nothing else but the log: the hooks stay installed and the globals
    registered.  Reading the store afterwards yields [undefined] at every
    id that is not the name of a member of [Object.prototype], and
    [showLocalEdits] then returns the empty store and reports a count of
    0. *)
Theorem clearAllEdits_empties s :
  ∃ s1 s2,
    clearAllEdits s = Ok () s1
    ∧ messageEdits s1 = ∅
    ∧ (∀ k, k ∉ object_prototype_names →
            edit_lookup (messageEdits s1) k = VUndef)
    ∧ set_logs (logs s) (set_messageEdits (messageEdits s) s1) = s
    ∧ showLocalEdits s1 = Ok ∅ s2
    ∧ logs s2 = (logs s ++ [LogInfo (str "Cleared all local message edits");
                            LogInfo (count_message 0);
                            ConsoleLog ∅])%list.
Proof.
  eexists _, _. split; [apply clearAllEdits_run|].
  cbn [messageEdits set_logs set_messageEdits].
  split; [done|].
  split; [intros k Hk; by rewrite edit_lookup_None|].
  split; [by destruct s|].
  split; [apply showLocalEdits_run|].
  cbn [logs set_logs messageEdits set_messageEdits].
  rewrite map_size_empty, <- app_assoc. reflexivity.
Qed.

(** ** The edit action *)

Lemma edit_action_run message k s :
  message_key (heap s) message = Some k →
  edit_action message s
  = Ok () (set_dialogs (dialogs s ++ [VRef (S (List.length (heap s)))])
             (set_heap
                (heap s ++
                 [CFun (OnConfirm message);
                  CObj (list_to_map
                    [("title", VStr (str "Edit Message Locally"));
                     ("placeholder", VStr (str "Enter new message content..."));
                     ("initialValue",
                      if truthy (edit_lookup (messageEdits s) k)
                      then edit_lookup (messageEdits s) k
                      else get_prop (heap s) message "content");
                     ("confirmText", VStr (str "Save"));
                     ("onConfirm", VRef (List.length (heap s)))])])%list s)).
Proof.
  intros [Hn Hk]%message_key_Some. unfold edit_action. mgo.
  destruct (truthy (edit_lookup (messageEdits s) k)); mgo;
    unfold modify; mrun; rewrite length_app, <- app_assoc;
    cbn [List.length app]; by rewrite Nat.add_1_r.
Qed.

(** X6. The edit action opens exactly one dialog and changes neither the
    store nor any existing object.  The dialog is pre-filled with the stored
    override when there is a non-empty one; with no override stored it is
    pre-filled with the message's own content, unless the id is the name of
    a member of [Object.prototype], in which case it is handed that member.
    Its [onConfirm] is the confirmation closure of this very message. *)
Theorem edit_action_opens_dialog message k s :
  message_key (heap s) message = Some k →
  ∃ s' config cb,
    edit_action message s = Ok () s'
    ∧ dialogs s' = (dialogs s ++ [config])%list
    ∧ get_prop (heap s') config "onConfirm" = VRef cb
    ∧ heap s' !! cb = Some (CFun (OnConfirm message))
    ∧ (messageEdits s !! k = None → k ∉ object_prototype_names →
       get_prop (heap s') config "initialValue"
       = get_prop (heap s) message "content")
    ∧ (messageEdits s !! k = None → k ∈ object_prototype_names →
       get_prop (heap s') config "initialValue" = VProtoMember k)
    ∧ (∀ v, messageEdits s !! k = Some v → v ≠ [] →
       get_prop (heap s') config "initialValue" = VStr v)
    ∧ messageEdits s' = messageEdits s
    ∧ (∀ l x, heap s !! l = Some x → heap s' !! l = Some x).
Proof.
  intros Hk. set (n := List.length (heap s)).
  eexists _, (VRef (S n)), n. split; [by apply edit_action_run|].
  cbn [dialogs set_dialogs heap set_heap messageEdits]. fold n.
  split; [done|].
  assert (Hcfg : ∀ c1 c2 : cell, (heap s ++ [c1; c2])%list !! S n = Some c2).
  { intros c1 c2. rewrite lookup_app_r by (subst n; lia).
    by replace (S n - List.length (heap s)) with 1 by (subst n; lia). }
  assert (Hcb : ∀ c1 c2 : cell, (heap s ++ [c1; c2])%list !! n = Some c1).
  { intros c1 c2. by rewrite list_lookup_middle. }
  split; [by erewrite get_prop_obj; [| apply Hcfg | reflexivity]|].
  split; [apply Hcb|]. split; [|split; [|split; [|split]]].
  - intros Hnone Hk'. rewrite (edit_lookup_None _ _ Hnone Hk'). cbn [truthy].
    by erewrite get_prop_obj; [| apply Hcfg | reflexivity].
  - intros Hnone Hk'. rewrite (edit_lookup_inherited _ _ Hnone Hk').
    cbn [truthy].
    by erewrite get_prop_obj; [| apply Hcfg | reflexivity].
  - intros v Hv Hne. rewrite (edit_lookup_Some _ _ _ Hv), (nonempty_truthy _ Hne).
    by erewrite get_prop_obj; [| apply Hcfg | reflexivity].
  - done.
  - intros l x Hl. rewrite lookup_app_l; [done|]. by eapply lookup_lt_Some.
Qed.

Lemma edit_action_opens_dialog_witness :
  message_key (heap demo_edited) (VRef 2) = Some (str "m1")
  ∧ ∃ s' config cb,
      edit_action (VRef 2) demo_edited = Ok () s'
      ∧ dialogs s' = (dialogs demo_edited ++ [config])%list
      ∧ get_prop (heap s') config "onConfirm" = VRef cb
      ∧ heap s' !! cb = Some (CFun (OnConfirm (VRef 2)))
      ∧ (messageEdits demo_edited !! str "m1" = None →
         str "m1" ∉ object_prototype_names →
         get_prop (heap s') config "initialValue"
         = get_prop (heap demo_edited) (VRef 2) "content")
      ∧ (messageEdits demo_edited !! str "m1" = None →
         str "m1" ∈ object_prototype_names →
         get_prop (heap s') config "initialValue" = VProtoMember (str "m1"))
      ∧ (∀ v, messageEdits demo_edited !! str "m1" = Some v → v ≠ [] →
         get_prop (heap s') config "initialValue" = VStr v)
      ∧ messageEdits s' = messageEdits demo_edited
      ∧ (∀ l x, heap demo_edited !! l = Some x → heap s' !! l = Some x).
Proof.
  split; [reflexivity|].
  apply (edit_action_opens_dialog (VRef 2) (str "m1") demo_edited); reflexivity.
Defined.

(** ** Rendering after a removal *)

Lemma render_hook_no_override this s k :
  message_key (heap s) (render_message (heap s) this) = Some k →
  truthy (edit_lookup (messageEdits s) k) = false →
  render_hook this s = Ok () s.
Proof.
  intros [Hn Hk]%message_key_render He.
  destruct (truthy (render_id (heap s) this)) eqn:Hid.
  - by apply (render_hook_no_edit this s k).
  - by apply render_hook_no_id.
Qed.

(** X7. Once the remove action has run for the message of a component, and
    the message's id is not the name of a member of [Object.prototype], the
    render hook leaves that component alone: it returns with the state as
    the removal left it, and the component shows the content the message
    had. *)
Theorem render_after_remove this s k :
  message_key (heap s) (render_message (heap s) this) = Some k →
  k ∉ object_prototype_names →
  ∃ s1,
    remove_action (render_message (heap s) this) s = Ok () s1
    ∧ messageEdits s1 !! k = None
    ∧ render_hook this s1 = Ok () s1
    ∧ render_content (heap s1) this = render_content (heap s) this.
Proof.
  intros Hk Hown. set (message := render_message (heap s) this) in *.
  destruct (message_key_Some _ _ _ Hk) as [Hn Hkey].
  assert (Hrun : remove_action message s
                 = Ok () (set_logs (logs s ++ [LogInfo (str "Removed local edit for message " ++ k)])
                            (set_messageEdits (delete k (messageEdits s)) s))).
  { unfold remove_action. mgo. reflexivity. }
  eexists. split; [exact Hrun|]. cbn [messageEdits set_logs set_messageEdits heap].
  split; [apply lookup_delete_eq|]. split; [|done].
  apply (render_hook_no_override this _ k); cbn [heap messageEdits set_logs set_messageEdits].
  - exact Hk.
  - rewrite edit_lookup_None; [done | apply lookup_delete_eq | done].
Qed.

Lemma render_after_remove_witness :
  message_key (heap demo_edited) (render_message (heap demo_edited) (VRef 0))
    = Some (str "m1")
  ∧ (str "m1" ∉ object_prototype_names)
  ∧ ∃ s1,
      remove_action (render_message (heap demo_edited) (VRef 0)) demo_edited
        = Ok () s1
      ∧ messageEdits s1 !! str "m1" = None
      ∧ render_hook (VRef 0) s1 = Ok () s1
      ∧ render_content (heap s1) (VRef 0)
        = render_content (heap demo_edited) (VRef 0).
Proof.
  split; [reflexivity|]. split; [not_a_member|].
  apply (render_after_remove (VRef 0) demo_edited (str "m1"));
    [reflexivity | not_a_member].
Defined.

(** ** The menu hook *)

(** Reading an array after [a[i] = v]: the written index holds [v], every
    other index reads what it read before (a hole reads [undefined]). *)
Lemma arr_set_lookup a i j v :
  default VUndef (arr_set a i v !! j)
  = if decide (j = i) then v else default VUndef (a !! j).
Proof.
  unfold arr_set. destruct (decide (i < List.length a)) as [Hi|Hi].
  - destruct (decide (j = i)) as [->|Hne].
    + by rewrite list_lookup_insert_eq.
    + by rewrite list_lookup_insert_ne.
  - destruct (decide (j < List.length a)) as [Hj|Hj].
    + rewrite lookup_app_l by done. rewrite decide_False by lia. done.
    + rewrite lookup_app_r by lia. rewrite (lookup_ge_None_2 a j) by lia.
      destruct (decide (j = i)) as [->|Hne].
      * rewrite lookup_app_r by (rewrite length_replicate; lia).
        rewrite length_replicate, Nat.sub_diag. done.
      * destruct (decide (j < i)) as [Hlt|Hge].
        -- rewrite lookup_app_l by (rewrite length_replicate; lia).
           rewrite lookup_replicate_2 by lia. done.
        -- rewrite lookup_app_r by (rewrite length_replicate; lia).
           rewrite length_replicate.
           rewrite lookup_ge_None_2; [done|]. cbn [List.length]. lia.
Qed.

(** X8. The menu hook replaces the second argument of the call, and only
    that one, by a new wrapper that closes over the builder that was there
    (or over [undefined] when the call had fewer than two arguments).  The
    other arguments, the other objects and the rest of the state stay as
    they were. *)
Theorem menu_hook_wraps l a s :
  heap s !! l = Some (CArr a) →
  ∃ s' w,
    menu_hook (VRef l) s = Ok () s'
    ∧ get_index (heap s') (VRef l) 1 = VRef w
    ∧ heap s' !! w = Some (CFun (MenuWrapper (get_index (heap s) (VRef l) 1)))
    ∧ (∀ i, i ≠ 1 →
        get_index (heap s') (VRef l) i = get_index (heap s) (VRef l) i)
    ∧ (∀ l' x, l' ≠ l → heap s !! l' = Some x → heap s' !! l' = Some x)
    ∧ set_heap (heap s) s' = s.
Proof.
  intros Hl. set (n := List.length (heap s)).
  assert (Hlen : l < n) by by eapply lookup_lt_Some.
  assert (Hrun : menu_hook (VRef l) s
                 = Ok () (set_heap
                            (<[l := CArr (arr_set a 1 (VRef n))]>
                               (heap s ++ [CFun (MenuWrapper (default VUndef (a !! 1)))]))
                            s)).
  { unfold menu_hook, set_index, get_index. mgo. rewrite Hl.
    rewrite lookup_app_l, Hl by done. reflexivity. }
  eexists _, n. split; [exact Hrun|]. cbn [heap set_heap].
  assert (Hcell : (<[l := CArr (arr_set a 1 (VRef n))]>
                     (heap s ++ [CFun (MenuWrapper (default VUndef (a !! 1)))]))
                    !! l = Some (CArr (arr_set a 1 (VRef n)))).
  { apply list_lookup_insert_eq. rewrite length_app. lia. }
  unfold get_index. rewrite Hcell, Hl. split; [|split; [|split; [|split]]].
  - by rewrite arr_set_lookup, decide_True.
  - rewrite list_lookup_insert_ne by lia. by rewrite list_lookup_middle.
  - intros i Hi. by rewrite arr_set_lookup, decide_False.
  - intros l' x Hne Hl'. rewrite list_lookup_insert_ne by done.
    rewrite lookup_app_l; [done|]. by eapply lookup_lt_Some.
  - by destruct s.
Qed.

Lemma menu_hook_wraps_witness :
  call_heap !! 8 = Some (CArr [VRef 9; VRef 7])
  ∧ ∃ s' w,
      menu_hook (VRef 8) (initial call_heap ∅) = Ok () s'
      ∧ get_index (heap s') (VRef 8) 1 = VRef w
      ∧ heap s' !! w
        = Some (CFun (MenuWrapper
                        (get_index (heap (initial call_heap ∅)) (VRef 8) 1)))
      ∧ (∀ i, i ≠ 1 →
          get_index (heap s') (VRef 8) i
          = get_index (heap (initial call_heap ∅)) (VRef 8) i)
      ∧ (∀ l' x, l' ≠ 8 → heap (initial call_heap ∅) !! l' = Some x →
                 heap s' !! l' = Some x)
      ∧ set_heap (heap (initial call_heap ∅)) s' = initial call_heap ∅.
Proof.
  split; [reflexivity|].
  apply (menu_hook_wraps 8 [VRef 9; VRef 7] (initial call_heap ∅)). reflexivity.
Defined.

(** ** What the menu wrapper leaves alone *)

Lemma heap_only_bind {A B} (m : M A) (f : A → M B) :
  heap_only m → (∀ a, heap_only (f a)) → heap_only (m ≫= f).
Proof.
  intros Hm Hf s s' Hl.
  destruct (lands_bind _ _ _ _ Hl) as [[e He]|(a & s1 & Ha & Hl')].
  - apply Hm. right; eauto.
  - assert (H1 : set_heap (heap s) s1 = s) by (apply Hm; left; eauto).
    pose proof (Hf a s1 s' Hl') as H2.
    apply (f_equal (set_heap (heap s))) in H2.
    rewrite set_heap_set_heap in H2. congruence.
Qed.

Lemma heap_only_same {A} (m : M A) :
  (∀ s, match m s with
        | Ok _ s' | Throw _ s' => ∃ h, s' = set_heap h s
        | Unmodelled => True
        end) →
  heap_only m.
Proof.
  intros H s s' Hl. specialize (H s).
  destruct Hl as [[a E]|[e E]]; rewrite E in H; destruct H as [h ->];
    by destruct s.
Qed.

Lemma heap_only_ret {A} (a : A) : heap_only (mret a).
Proof. apply heap_only_same. intros s. exists (heap s). by destruct s. Qed.

Lemma heap_only_throw {A} e : heap_only (@throw A e).
Proof. apply heap_only_same. intros s. exists (heap s). by destruct s. Qed.

Lemma heap_only_unmodelled {A} : heap_only (@unmodelled A).
Proof. by apply heap_only_same. Qed.

Lemma heap_only_gets {A} (f : state → A) : heap_only (gets f).
Proof. apply heap_only_same. intros s. exists (heap s). by destruct s. Qed.

Lemma heap_only_alloc c : heap_only (alloc c).
Proof. apply heap_only_same. intros s. by eexists. Qed.

Lemma heap_only_member v k : heap_only (member v k).
Proof.
  unfold member. destruct (nullish v);
    [apply heap_only_throw | apply heap_only_gets].
Qed.

Lemma heap_only_opt_member v k : heap_only (opt_member v k).
Proof. apply heap_only_gets. Qed.

Lemma heap_only_set_member v k x : heap_only (set_member v k x).
Proof.
  unfold set_member. destruct (nullish v); [apply heap_only_throw|].
  destruct v; try apply heap_only_unmodelled.
  apply heap_only_same. intros s. destruct (heap s !! l) as [[| |]|]; eauto.
Qed.

Lemma heap_only_push v x : heap_only (push v x).
Proof.
  unfold push. destruct v; try apply heap_only_unmodelled.
  apply heap_only_same. intros s. destruct (heap s !! l) as [[| |]|]; eauto.
Qed.

Lemma heap_only_to_key v : heap_only (to_key v).
Proof.
  unfold to_key. destruct (property_key v);
    [apply heap_only_ret | apply heap_only_unmodelled].
Qed.

Lemma heap_only_call_host host f args : heap_only (call_host host f args).
Proof.
  apply heap_only_same. intros s. unfold call_host.
  destruct (apply_host host f args (heap s)); eauto.
Qed.

Create HintDb heap_only.
#[local] Hint Resolve heap_only_ret heap_only_throw heap_only_unmodelled
  heap_only_gets heap_only_alloc heap_only_member heap_only_opt_member
  heap_only_set_member heap_only_push heap_only_to_key heap_only_call_host
  : heap_only.

Ltac heap_only_auto :=
  repeat first
    [ apply heap_only_bind; [|intros ?]
    | solve [eauto with heap_only]
    | match goal with
      | |- heap_only (if ?b then _ else _) => destruct b
      | |- heap_only (match ?x with _ => _ end) => destruct x
      end ].

(** X9. Whatever the builder returns or throws and whichever branch the
    wrapper takes, opening a menu changes nothing but the heap: the store,
    the undo handles, the globals, the installed patches, the dialogs and
    the log are what they were. *)
Theorem menu_wrapper_heap_only host menuComponent props s s' :
  lands (menu_wrapper host menuComponent props) s s' →
  set_heap (heap s) s' = s.
Proof.
  revert s s'. change (heap_only (menu_wrapper host menuComponent props)).
  unfold menu_wrapper, make_editButton, make_removeButton, append_buttons.
  heap_only_auto.
Qed.

Lemma menu_wrapper_heap_only_witness :
  lands (menu_wrapper demo_host (VRef 7) (VRef 1)) demo_edited demo_menu_opened
  ∧ List.length (heap demo_menu_opened) = 12
  ∧ set_heap (heap demo_edited) demo_menu_opened = demo_edited.
Proof.
  assert (Hl : lands (menu_wrapper demo_host (VRef 7) (VRef 1))
                 demo_edited demo_menu_opened).
  { left. exists (VRef 4). vm_compute. reflexivity. }
  split; [exact Hl|]. split; [by vm_compute|].
  exact (menu_wrapper_heap_only demo_host (VRef 7) (VRef 1) demo_edited
           demo_menu_opened Hl).
Defined.

(** ** The children array is extended in place *)

Lemma append_buttons_array menu edit remove s lc a :
  menu_children (heap s) menu = VRef lc →
  heap s !! lc = Some (CArr a) →
  ∃ s',
    append_buttons menu edit remove s = Ok () s'
    ∧ menu_children (heap s') menu = VRef lc
    ∧ heap s' !! lc
      = Some (CArr (a ++ edit :: (if truthy remove then [remove] else [])))
    ∧ List.length (heap s') = List.length (heap s).
Proof.
  intros Hch Hlc.
  assert (H : truthy (menu_children (heap s) menu) = true) by by rewrite Hch.
  destruct (menu_children_truthy _ _ H) as (lm & mf & lp & pf
    & -> & Hlm & Hmf & Hlp & Hpf).
  rewrite Hch in Hpf.
  pose proof (get_prop_obj _ _ _ _ _ Hlm Hmf) as Ep.
  pose proof (get_prop_obj _ _ _ _ _ Hlp Hpf) as Ec.
  assert (HA : isArray (heap s) (VRef lc) = true).
  { unfold isArray. by rewrite Hlc. }
  pose proof (append_tail_run s lc a lm mf lp pf edit remove Hlc Hlm Hmf Hlp)
    as Htail.
  destruct (append_final_facts (heap s) lc a lm mf lp pf
              (a ++ edit :: (if truthy remove then [remove] else []))
              Hlc Hlm Hmf Hlp) as (F1 & F2 & F3 & F4).
  eexists. split.
  - unfold append_buttons. mgo. rewrite !opt_prop_ref, Ep, opt_prop_ref, Ec.
    cbn [truthy]. mgo. rewrite Ep. mgo. rewrite Ec, HA. exact Htail.
  - cbn [heap set_heap]. repeat (split; [done|]).
    by rewrite !length_insert.
Qed.

(** The wrapper up to the append block, for a message of another user. *)
Lemma menu_wrapper_steps host menuComponent props s menu h1 k :
  apply_host host menuComponent [props] (heap s) = HostReturn menu h1 →
  is_object h1 (menu_message h1 props) = true →
  strict_eq (author_id h1 (menu_message h1 props)) (viewer_id h1 props) = false →
  message_key h1 (menu_message h1 props) = Some k →
  ∃ cells edit remove,
    menu_wrapper host menuComponent props s
    = (append_buttons menu edit remove ≫= λ _, mret menu)
        (set_heap (h1 ++ cells) s)
    ∧ (∀ c, c ∈ cells → is_array_cell c = false)
    ∧ truthy remove = truthy (edit_lookup (messageEdits s) k).
Proof.
  intros Hcall Hobj Hneq Hk.
  rewrite (menu_wrapper_guard _ _ _ _ _ _ Hcall).
  set (message := menu_message h1 props) in *.
  assert (Hm : truthy message = true).
  { destruct (is_object_inv _ _ Hobj) as (l & f & -> & _). done. }
  rewrite Hm, Hneq. cbn [andb negb].
  unfold mbind at 1 2, M_bind at 1 2.
  rewrite (make_editButton_run host message k (set_heap h1 s))
    by (cbn [heap set_heap]; exact Hk).
  cbn [heap set_heap messageEdits]. rewrite set_heap_set_heap.
  match goal with |- context [set_heap (h1 ++ ?c) s] => set (c2 := c) end.
  assert (Hk2 : message_key (h1 ++ c2) message = Some k)
    by by rewrite message_key_app.
  rewrite (make_removeButton_run host message k (set_heap (h1 ++ c2) s) Hk2).
  cbn [heap set_heap messageEdits].
  destruct (truthy (edit_lookup (messageEdits s) k)) eqn:Ht.
  - rewrite set_heap_set_heap, <- app_assoc.
    eexists _, _, _. split; [reflexivity|]. split; [|done].
    intros c Hc. subst c2.
    repeat (apply elem_of_cons in Hc as [->|Hc]; [done|]).
    by apply elem_of_nil in Hc.
  - eexists _, _, _. split; [reflexivity|]. split; [|done].
    intros c Hc. subst c2.
    repeat (apply elem_of_cons in Hc as [->|Hc]; [done|]).
    by apply elem_of_nil in Hc.
Qed.

(** X10. When the builder's menu holds its children in an array, the
    wrapper pushes onto that very array object: the menu still refers to
    the same array, which now ends with the added actions, two when the
    store read at the message's id is truthy (an override, or the member of
    [Object.prototype] the id names) and one otherwise.  A builder that
    hands out the same menu object again therefore finds the actions of the
    earlier call in it. *)
Theorem menu_wrapper_pushes_in_place host menuComponent props s menu h1 k lc a :
  apply_host host menuComponent [props] (heap s) = HostReturn menu h1 →
  is_object h1 (menu_message h1 props) = true →
  strict_eq (author_id h1 (menu_message h1 props)) (viewer_id h1 props) = false →
  message_key h1 (menu_message h1 props) = Some k →
  menu_children h1 menu = VRef lc →
  h1 !! lc = Some (CArr a) →
  ∃ s' added,
    menu_wrapper host menuComponent props s = Ok menu s'
    ∧ menu_children (heap s') menu = VRef lc
    ∧ heap s' !! lc = Some (CArr (a ++ added))
    ∧ List.length added
      = (if truthy (edit_lookup (messageEdits s) k) then 2 else 1).
Proof.
  intros Hcall Hobj Hneq Hk Hch Hlc.
  destruct (menu_wrapper_steps _ _ _ _ _ _ _ Hcall Hobj Hneq Hk)
    as (cells & edit & remove & Hrun & _ & Hrem).
  assert (Hch' : menu_children (h1 ++ cells) menu = VRef lc).
  { rewrite menu_children_app; [done|]. by rewrite Hch. }
  assert (Hlc' : (h1 ++ cells) !! lc = Some (CArr a)).
  { rewrite lookup_app_l; [done|]. by eapply lookup_lt_Some. }
  destruct (append_buttons_array menu edit remove (set_heap (h1 ++ cells) s)
              lc a Hch' Hlc') as (s' & Happ & Hc1 & Hc2 & _).
  exists s', (edit :: (if truthy remove then [remove] else [])).
  split.
  { rewrite Hrun. unfold mbind, M_bind. by rewrite Happ. }
  repeat (split; [done|]). rewrite Hrem.
  by destruct (truthy (edit_lookup (messageEdits s) k)).
Qed.

Lemma menu_wrapper_pushes_in_place_witness :
  apply_host demo_host (VRef 7) [VRef 1] (heap demo_edited)
    = HostReturn (VRef 4) demo_heap
  ∧ menu_children demo_heap (VRef 4) = VRef 6
  ∧ ∃ s' added,
      menu_wrapper demo_host (VRef 7) (VRef 1) demo_edited = Ok (VRef 4) s'
      ∧ menu_children (heap s') (VRef 4) = VRef 6
      ∧ heap s' !! 6 = Some (CArr ([VStr (str "Copy Text")] ++ added))
      ∧ List.length added
        = (if truthy (edit_lookup (messageEdits demo_edited) (str "m1"))
           then 2 else 1).
Proof.
  split; [reflexivity|]. split; [reflexivity|].
  apply (menu_wrapper_pushes_in_place demo_host (VRef 7) (VRef 1) demo_edited
           (VRef 4) demo_heap (str "m1") 6 [VStr (str "Copy Text")]);
    reflexivity.
Defined.

(** ** Activation *)

Ltac onLoad_cases :=
  unfold onLoad, setup, before, member;
  unfold mbind, M_bind, mret, M_ret, try_catch; mrun;
  repeat (match goal with
          | |- context [if truthy ?v then _ else _] => destruct (truthy v) eqn:?
          | |- context [if nullish ?v then _ else _] => destruct (nullish v) eqn:?
          | |- context [match before_rejects ?h ?n ?t with _ => _ end] =>
              destruct (before_rejects h n t) eqn:?
          end; mrun).

(** X11. [onLoad] always returns: whatever the host lookups answer and
    whether or not the patcher accepts the targets, no exception leaves it.
    It never touches the store, invokes no undo handle and opens no dialog;
    it only adds objects to the heap and patches to the patcher. *)
Theorem onLoad_returns host s :
  ∃ s' cells ps,
    onLoad host s = Ok () s'
    ∧ messageEdits s' = messageEdits s
    ∧ undone s' = undone s
    ∧ dialogs s' = dialogs s
    ∧ heap s' = heap s ++ cells
    ∧ patches s' = patches s ++ ps.
Proof.
  destruct s as [h m ur uc g p un d l]. onLoad_cases;
    (eexists _, _, _; split; [reflexivity|]); mrun;
    rewrite <- ?app_assoc;
    repeat split; first [ reflexivity | symmetry; apply app_nil_r ].
Qed.

Lemma get_prop_app_fun h c v k :
  get_prop (h ++ [CFun c]) v k = get_prop h v k.
Proof.
  destruct v as [| | | | |l|?]; try reflexivity. unfold get_prop.
  destruct (decide (l < List.length h)) as [Hl|Hl].
  - by rewrite lookup_app_l.
  - rewrite lookup_app_r by lia. rewrite (lookup_ge_None_2 h) by lia.
    by destruct (l - List.length h) as [|[|]].
Qed.

Lemma lookup_app_plus {A} (l k : list A) i :
  (l ++ k) !! (List.length l + i) = k !! i.
Proof. rewrite lookup_app_r by lia. f_equal. lia. Qed.

Ltac heap_at :=
  rewrite <- ?app_assoc; cbn [app]; rewrite ?length_app; cbn [List.length];
  rewrite <- ?Nat.add_assoc;
  first [ by apply list_lookup_middle
        | by rewrite lookup_app_plus ].

(** X12. When the context-menu module is found and the patcher accepts
    its targets, [onLoad] completes, and each of the two hooks is installed
    exactly when its target is truthy: the patcher gains the render patch
    (on the prototype of the component, under the name [render]) if the
    component was found and the menu patch (on the menu target, under the
    name [openContextMenuLazy]) if the menu target was found, in this order
    and nothing else; a handle is stored for each patch installed and the
    other handles stay as they were.  A missing render target does not keep
    the menu hook from being installed, both debug functions are registered
    as globals, and the store, the undo record and the dialogs are
    untouched. *)
Theorem onLoad_registers host s :
  nullish (menu_module host) = false →
  (∀ name target, before_rejects host name target = None) →
  ∃ s',
    onLoad host s = Ok () s'
    ∧ heap s' = heap s ++ render_cells host s ++ menu_cells host s
                ++ [CFun ShowLocalEdits; CFun ClearAllEdits]
    ∧ patches s' = patches s ++ render_patches host s ++ menu_patches host s
    ∧ unpatchRender s'
      = (if truthy (render_target host (heap s))
         then Some (List.length (patches s)) else unpatchRender s)
    ∧ unpatchContextMenu s'
      = (if truthy (menu_target host (heap s))
         then Some (List.length (patches s ++ render_patches host s))
         else unpatchContextMenu s)
    ∧ globals s'
      = <["clearAllEdits" :=
            VRef (S (List.length (heap s ++ render_cells host s
                                  ++ menu_cells host s)))]>
          (<["showLocalEdits" :=
               VRef (List.length (heap s ++ render_cells host s
                                  ++ menu_cells host s))]> (globals s))
    ∧ logs s'
      = logs s ++ [LogInfo (str "Local Message Editor plugin loaded");
                   LogInfo (str "Local message editor loaded successfully!");
                   LogInfo (str "Long-press any message to see edit options")]
    ∧ messageEdits s' = messageEdits s
    ∧ undone s' = undone s
    ∧ dialogs s' = dialogs s.
Proof.
  intros Hn Hacc. destruct s as [h m ur uc g p un d l].
  unfold menu_patches, menu_cells, render_patches, render_cells.
  unfold render_target, menu_target, menu_module in *. cbn [heap patches].
  unfold onLoad, setup, before, member.
  unfold mbind, M_bind, mret, M_ret, try_catch. mrun.
  destruct (truthy (coalesce _ _)) eqn:HMC.
  - rewrite (truthy_not_nullish _ HMC). mrun. rewrite Hacc. mrun.
    rewrite Hn. mrun. rewrite get_prop_app_fun.
    match goal with
    | |- context [if truthy ?v then _ else _] => destruct (truthy v) eqn:HCMA
    end; mrun; rewrite ?Hacc; mrun;
      (eexists; split; [reflexivity|]); mrun;
      rewrite <- ?app_assoc, ?length_app; cbn [app List.length];
      rewrite ?app_nil_r;
      repeat split; try reflexivity; repeat f_equal; lia.
  - rewrite Hn. mrun.
    match goal with
    | |- context [if truthy ?v then _ else _] => destruct (truthy v) eqn:HCMA
    end; mrun; rewrite ?Hacc; mrun;
      (eexists; split; [reflexivity|]); mrun;
      rewrite <- ?app_assoc, ?length_app; cbn [app List.length];
      rewrite ?app_nil_r;
      repeat split; try reflexivity; repeat f_equal; lia.
Qed.

Lemma onLoad_registers_witness :
  nullish (menu_module norender_host) = false
  ∧ truthy (render_target norender_host norender_heap) = false
  ∧ truthy (menu_target norender_host norender_heap) = true
  ∧ ∃ s',
      onLoad norender_host (initial norender_heap ∅) = Ok () s'
      ∧ heap s' = norender_heap
                  ++ [CFun MenuHook; CFun ShowLocalEdits; CFun ClearAllEdits]
      ∧ patches s' = [Patch (str "openContextMenuLazy") (VRef 0) (VRef 1)]
      ∧ unpatchRender s' = None
      ∧ unpatchContextMenu s' = Some 0
      ∧ globals s' = <["clearAllEdits" := VRef 3]>
                       (<["showLocalEdits" := VRef 2]> ∅)
      ∧ logs s'
        = [LogInfo (str "Local Message Editor plugin loaded");
           LogInfo (str "Local message editor loaded successfully!");
           LogInfo (str "Long-press any message to see edit options")]
      ∧ messageEdits s' = ∅
      ∧ undone s' = []
      ∧ dialogs s' = [].
Proof.
  split; [reflexivity|]. split; [reflexivity|]. split; [reflexivity|].
  apply (onLoad_registers norender_host (initial norender_heap ∅));
    [reflexivity | intros; reflexivity].
Defined.

(** X13. When the patcher refuses the render target, the activation stops
    there: the error handler logs the patcher's error, no hook is installed,
    the menu lookup is not reached and no debug function is registered. *)
Theorem onLoad_render_rejected host s e :
  truthy (render_target host (heap s)) = true →
  before_rejects host (str "render")
    (get_prop (heap s) (render_target host (heap s)) "prototype") = Some e →
  ∃ s',
    onLoad host s = Ok () s'
    ∧ unpatchRender s' = unpatchRender s
    ∧ unpatchContextMenu s' = unpatchContextMenu s
    ∧ patches s' = patches s
    ∧ globals s' = globals s
    ∧ last (logs s')
      = Some (LogError (str "Failed to setup message editor:") e).
Proof.
  intros HMC Hrej. destruct s as [h m ur uc g p un d l].
  unfold render_target in *. cbn [heap] in *.
  unfold onLoad, setup, before, member.
  unfold mbind, M_bind, mret, M_ret, try_catch. mrun.
  rewrite HMC, (truthy_not_nullish _ HMC). mrun. rewrite Hrej. mrun.
  eexists. split; [reflexivity|]. mrun. repeat (split; [reflexivity|]).
  apply last_snoc.
Qed.

Lemma onLoad_render_rejected_witness :
  truthy (render_target picky_host (heap (initial picky_heap ∅))) = true
  ∧ before_rejects picky_host (str "render")
      (get_prop (heap (initial picky_heap ∅))
         (render_target picky_host (heap (initial picky_heap ∅))) "prototype")
    = Some TypeError
  ∧ ∃ s',
      onLoad picky_host (initial picky_heap ∅) = Ok () s'
      ∧ unpatchRender s' = unpatchRender (initial picky_heap ∅)
      ∧ unpatchContextMenu s' = unpatchContextMenu (initial picky_heap ∅)
      ∧ patches s' = patches (initial picky_heap ∅)
      ∧ globals s' = globals (initial picky_heap ∅)
      ∧ last (logs s')
        = Some (LogError (str "Failed to setup message editor:") TypeError).
Proof.
  split; [reflexivity|]. split; [reflexivity|].
  apply (onLoad_render_rejected picky_host (initial picky_heap ∅) TypeError);
    reflexivity.
Defined.

(** ** Activation followed by deactivation *)

Lemma seq_after {A} (p ps : list A) :
  seq (List.length p) (List.length (p ++ ps) - List.length p)
  = seq (List.length p) (List.length ps).
Proof. rewrite length_app. f_equal. lia. Qed.

(** X14. From a state with no stored handle, [onLoad] followed by
    [onUnload] undoes exactly the patches that this [onLoad] installed, each
    once and in the order of installation, whichever way the activation
    went (complete, partial or failed); the store is empty and the debug
    functions are gone afterwards. *)
Theorem load_then_unload host s :
  unpatchRender s = None →
  unpatchContextMenu s = None →
  ∃ s1 s2,
    onLoad host s = Ok () s1
    ∧ onUnload s1 = Ok () s2
    ∧ undone s2
      = undone s ++ seq (List.length (patches s))
                        (List.length (patches s1) - List.length (patches s))
    ∧ patches s2 = patches s1
    ∧ unpatchRender s2 = None
    ∧ unpatchContextMenu s2 = None
    ∧ messageEdits s2 = ∅
    ∧ globals s2 !! "showLocalEdits" = None
    ∧ globals s2 !! "clearAllEdits" = None.
Proof.
  destruct s as [h m ur uc g p un d l]. cbn [unpatchRender unpatchContextMenu].
  intros -> ->. onLoad_cases;
    (eexists _, _; split; [reflexivity|]);
    (split; [apply onUnload_run|]); mrun;
    rewrite delete_all_keys_empty, <- ?app_assoc; cbn [app];
    (split; [|repeat (split; [first [ reflexivity | apply lookup_delete_eq
                     | by rewrite lookup_delete_ne, lookup_delete_eq ]|]);
              first [ reflexivity | apply lookup_delete_eq
                    | by rewrite lookup_delete_ne, lookup_delete_eq ]]);
    f_equal;
    first [ rewrite seq_after | rewrite Nat.sub_diag ];
    cbn [List.length seq option_list app];
    rewrite ?length_app; cbn [List.length]; rewrite ?Nat.add_1_r; reflexivity.
Qed.

Lemma load_then_unload_witness :
  unpatchRender (initial full_heap ∅) = None
  ∧ unpatchContextMenu (initial full_heap ∅) = None
  ∧ ∃ s1 s2,
      onLoad full_host (initial full_heap ∅) = Ok () s1
      ∧ onUnload s1 = Ok () s2
      ∧ undone s2
        = undone (initial full_heap ∅)
          ++ seq (List.length (patches (initial full_heap ∅)))
                 (List.length (patches s1)
                  - List.length (patches (initial full_heap ∅)))
      ∧ patches s2 = patches s1
      ∧ unpatchRender s2 = None
      ∧ unpatchContextMenu s2 = None
      ∧ messageEdits s2 = ∅
      ∧ globals s2 !! "showLocalEdits" = None
      ∧ globals s2 !! "clearAllEdits" = None.
Proof.
  split; [reflexivity|]. split; [reflexivity|].
  apply (load_then_unload full_host (initial full_heap ∅)); reflexivity.
Defined.

Lemma opt_prop_app_fun h c v k :
  opt_prop (h ++ [CFun c]) v k = opt_prop h v k.
Proof. unfold opt_prop. by rewrite get_prop_app_fun. Qed.

Lemma render_target_app_fun host h c :
  render_target host (h ++ [CFun c]) = render_target host h.
Proof. unfold render_target. by rewrite opt_prop_app_fun. Qed.

Lemma menu_target_app_fun host h c :
  menu_target host (h ++ [CFun c]) = menu_target host h.
Proof. unfold menu_target. by rewrite get_prop_app_fun. Qed.

(** The complete activation, when both targets are found and accepted. *)
Lemma onLoad_full_run host s :
  nullish (menu_module host) = false →
  (∀ name target, before_rejects host name target = None) →
  truthy (render_target host (heap s)) = true →
  truthy (menu_target host (heap s)) = true →
  let h := heap s in
  let n := List.length h in
  let p := List.length (patches s) in
  onLoad host s
  = Ok () (State
             (h ++ [CFun RenderHook; CFun MenuHook; CFun ShowLocalEdits;
                    CFun ClearAllEdits])
             (messageEdits s) (Some p) (Some (S p))
             (<["clearAllEdits" := VRef (n + 3)]>
                (<["showLocalEdits" := VRef (n + 2)]> (globals s)))
             (patches s ++
              [Patch (str "render")
                 (get_prop h (render_target host h) "prototype") (VRef n);
               Patch (str "openContextMenuLazy") (menu_target host h)
                 (VRef (n + 1))])
             (undone s) (dialogs s)
             (logs s ++
              [LogInfo (str "Local Message Editor plugin loaded");
               LogInfo (str "Local message editor loaded successfully!");
               LogInfo (str "Long-press any message to see edit options")])).
Proof.
  intros Hn Hacc HMC HCMA. destruct s as [h m ur uc g p un d l].
  unfold render_target, menu_target, menu_module in *. cbn [heap patches] in *.
  unfold onLoad, setup, before, member.
  unfold mbind, M_bind, mret, M_ret, try_catch. mrun.
  rewrite HMC, (truthy_not_nullish _ HMC). mrun. rewrite Hacc. mrun.
  rewrite Hn. mrun. rewrite get_prop_app_fun, HCMA. mrun.
  rewrite Hacc. mrun. unfold log_info, modify. mrun.
  rewrite !length_app. cbn [List.length].
  rewrite <- !app_assoc, <- !Nat.add_assoc. cbn [app Nat.add].
  rewrite Nat.add_1_r. reflexivity.
Qed.

(** X15. Activating twice installs the hooks twice and keeps only the
    handles of the second pair: four patches are installed, and the
    deactivation that follows undoes the last two only, so the first pair of
    hooks stays in place. *)
Theorem double_activation host s :
  nullish (menu_module host) = false →
  (∀ name target, before_rejects host name target = None) →
  truthy (render_target host (heap s)) = true →
  truthy (menu_target host (heap s)) = true →
  ∃ s1 s2 s3,
    onLoad host s = Ok () s1
    ∧ onLoad host s1 = Ok () s2
    ∧ onUnload s2 = Ok () s3
    ∧ List.length (patches s3) = List.length (patches s) + 4
    ∧ undone s3 = undone s ++ [List.length (patches s) + 2;
                               List.length (patches s) + 3].
Proof.
  intros Hn Hacc HMC HCMA.
  pose proof (onLoad_full_run host s Hn Hacc HMC HCMA) as H1. cbv zeta in H1.
  eexists _, _, _. split; [exact H1|].
  split.
  { apply onLoad_full_run; try done; cbn [heap].
    - change (heap s ++ [CFun RenderHook; CFun MenuHook; CFun ShowLocalEdits;
                         CFun ClearAllEdits])
        with (heap s ++ [CFun RenderHook] ++ [CFun MenuHook]
                     ++ [CFun ShowLocalEdits] ++ [CFun ClearAllEdits]).
      by rewrite !app_assoc, !render_target_app_fun.
    - change (heap s ++ [CFun RenderHook; CFun MenuHook; CFun ShowLocalEdits;
                         CFun ClearAllEdits])
        with (heap s ++ [CFun RenderHook] ++ [CFun MenuHook]
                     ++ [CFun ShowLocalEdits] ++ [CFun ClearAllEdits]).
      by rewrite !app_assoc, !menu_target_app_fun. }
  cbv zeta. split; [apply onUnload_run|].
  cbn [patches undone unpatchRender unpatchContextMenu option_list].
  rewrite !length_app. cbn [List.length]. split; [lia|].
  cbn [option_list app].
  by replace (S (List.length (patches s) + 2))
    with (List.length (patches s) + 3) by lia.
Qed.

Lemma double_activation_witness :
  nullish (menu_module full_host) = false
  ∧ truthy (render_target full_host (heap (initial full_heap ∅))) = true
  ∧ truthy (menu_target full_host (heap (initial full_heap ∅))) = true
  ∧ ∃ s1 s2 s3,
      onLoad full_host (initial full_heap ∅) = Ok () s1
      ∧ onLoad full_host s1 = Ok () s2
      ∧ onUnload s2 = Ok () s3
      ∧ List.length (patches s3)
        = List.length (patches (initial full_heap ∅)) + 4
      ∧ undone s3
        = undone (initial full_heap ∅)
          ++ [List.length (patches (initial full_heap ∅)) + 2;
              List.length (patches (initial full_heap ∅)) + 3].
Proof.
  split; [reflexivity|]. split; [reflexivity|]. split; [reflexivity|].
  apply (double_activation full_host (initial full_heap ∅));
    [reflexivity | intros; reflexivity | reflexivity | reflexivity].
Defined.

(** ** From the dialog to the screen *)

(** X16. After the dialog of a component's message (an object with a truthy
    id other than [__proto__]) was confirmed with a text that is not blank,
    the next run of the render hook makes the component show exactly that
    text, whatever override was there before; the message object itself
    keeps its content. *)
Theorem confirm_then_render host this s k t :
  truthy (render_id (heap s) this) = true →
  property_key (render_id (heap s) this) = Some k →
  k ≠ str "__proto__" →
  ¬ blank t →
  ∃ s1 s2,
    on_confirm host (render_message (heap s) this) t s = Ok () s1
    ∧ render_hook this s1 = Ok () s2
    ∧ render_content (heap s2) this = VStr t
    ∧ get_prop (heap s2) (render_message (heap s) this) "content"
      = get_prop (heap s) (render_message (heap s) this) "content".
Proof.
  intros Hid Hk Hp Ht.
  destruct (render_id_truthy _ _ Hid) as (lt & tf & lp & pf & lm & mf
    & -> & Hlt & Htf & Hlp & Hpf & Hlm & Hmf).
  destruct (render_id_obj _ _ _ _ _ _ _ _ Hlt Htf Hlp Hpf Hlm Hmf) as [Emsg Eid].
  rewrite Emsg.
  assert (Hkey : message_key (heap s) (VRef lm) = Some k).
  { unfold message_key. cbn [nullish].
    rewrite (get_prop_obj _ _ _ _ _ Hlm Hmf). exact Hk. }
  pose proof (on_confirm_run host (VRef lm) t k s Hkey) as Hrun1.
  rewrite bool_decide_eq_false_2 in Hrun1 by exact Ht.
  rewrite assign_edit_insert in Hrun1 by exact Hp.
  set (s1 := State (heap s ++ confirm_cells host) (<[k := t]> (messageEdits s))
               (unpatchRender s) (unpatchContextMenu s) (globals s) (patches s)
               (undone s) (dialogs s) (logs s ++ confirm_logs host t k)) in *.
  assert (Hext : ∀ l x, heap s !! l = Some x → heap s1 !! l = Some x).
  { intros l x Hl. subst s1. cbn [heap]. rewrite lookup_app_l; [done|].
    by eapply lookup_lt_Some. }
  assert (Hne : t ≠ []) by (intros ->; by apply Ht).
  pose proof (render_hook_run s1 lt tf lp pf lm mf _ k t
                (Hext _ _ Hlt) Htf (Hext _ _ Hlp) Hpf (Hext _ _ Hlm) Hmf
                Hid Hk (lookup_insert_eq _ _ _) Hne) as Hrun2.
  assert (Hlen : lt < List.length (heap s1))
    by (eapply lookup_lt_Some; by apply Hext).
  destruct (render_heap_lookups lt tf pf mf t (heap s1) Hlen)
    as (Ht2 & Hp2 & Hm2 & Hold).
  eexists s1, _. split; [exact Hrun1|]. split; [exact Hrun2|].
  cbn [heap set_heap]. split.
  - unfold render_content.
    assert (Hid2 : (<["content" := VStr t]> mf : gmap string jsval) !! "id"
                   = Some (render_id (heap s) (VRef lt)))
      by by rewrite lookup_insert_ne.
    destruct (render_id_obj _ _ _ _ _ _ _ _ Ht2 (lookup_insert_eq _ _ _)
                Hp2 (lookup_insert_eq _ _ _) Hm2 Hid2) as [-> _].
    apply (get_prop_obj _ _ _ _ _ Hm2). apply lookup_insert_eq.
  - unfold get_prop. rewrite Hlm. destruct (decide (lm = lt)) as [->|Hne'].
    + rewrite Ht2. rewrite lookup_insert_ne by done. congruence.
    + rewrite Hold; [| done | eapply lookup_lt_Some; by apply Hext].
      by rewrite (Hext _ _ Hlm).
Qed.

Lemma confirm_then_render_witness :
  truthy (render_id (heap demo_edited) (VRef 0)) = true
  ∧ property_key (render_id (heap demo_edited) (VRef 0)) = Some (str "m1")
  ∧ str "m1" ≠ str "__proto__"
  ∧ ¬ blank (str "Bye")
  ∧ ∃ s1 s2,
      on_confirm demo_host (render_message (heap demo_edited) (VRef 0))
        (str "Bye") demo_edited = Ok () s1
      ∧ render_hook (VRef 0) s1 = Ok () s2
      ∧ render_content (heap s2) (VRef 0) = VStr (str "Bye")
      ∧ get_prop (heap s2) (render_message (heap demo_edited) (VRef 0)) "content"
        = get_prop (heap demo_edited)
            (render_message (heap demo_edited) (VRef 0)) "content".
Proof.
  split; [reflexivity|]. split; [reflexivity|]. split; [by vm_compute|].
  split; [by vm_compute|].
  apply (confirm_then_render demo_host (VRef 0) demo_edited (str "m1") (str "Bye"));
    [reflexivity | reflexivity | by vm_compute | by vm_compute].
Defined.

(** ** The added actions *)

Lemma editButton_field host label action :
  editButton_fields host label action !! "id" = Some (VStr (str "edit-locally"))
  ∧ editButton_fields host label action !! "icon"
    = Some (findByName host (str "PencilIcon"))
  ∧ editButton_fields host label action !! "action" = Some action.
Proof. done. Qed.

Lemma removeButton_field host action :
  removeButton_fields host action !! "id"
    = Some (VStr (str "remove-local-edit"))
  ∧ removeButton_fields host action !! "icon"
    = Some (findByName host (str "TrashIcon"))
  ∧ removeButton_fields host action !! "destructive" = Some (VBool true)
  ∧ removeButton_fields host action !! "action" = Some action.
Proof. done. Qed.

(** X17. The actions the wrapper adds are bound to the message of the call:
    the first added descriptor has the id [edit-locally], the pencil icon
    and, as action, the edit closure of that message; when the store read
    at the message's id is truthy (an override, or the member of
    [Object.prototype] the id names), a second one follows, with the id
    [remove-local-edit], the trash icon, the destructive flag and the
    remove closure of that message. *)
Theorem menu_actions_wired host menuComponent props s menu h1 k :
  apply_host host menuComponent [props] (heap s) = HostReturn menu h1 →
  is_object h1 (menu_message h1 props) = true →
  strict_eq (author_id h1 (menu_message h1 props)) (viewer_id h1 props) = false →
  message_key h1 (menu_message h1 props) = Some k →
  truthy (menu_children h1 menu) = true →
  ∃ s' c edit remove ea,
    menu_wrapper host menuComponent props s = Ok menu s'
    ∧ menu_children (heap s') menu = VRef c
    ∧ heap s' !! c
      = Some (CArr (child_list h1 (menu_children h1 menu)
                    ++ edit :: (if truthy (edit_lookup (messageEdits s) k)
                                then [remove] else [])))
    ∧ get_prop (heap s') edit "id" = VStr (str "edit-locally")
    ∧ get_prop (heap s') edit "icon" = findByName host (str "PencilIcon")
    ∧ get_prop (heap s') edit "action" = VRef ea
    ∧ heap s' !! ea = Some (CFun (EditAction (menu_message h1 props)))
    ∧ (truthy (edit_lookup (messageEdits s) k) = true →
       ∃ ra,
         get_prop (heap s') remove "id" = VStr (str "remove-local-edit")
         ∧ get_prop (heap s') remove "icon" = findByName host (str "TrashIcon")
         ∧ get_prop (heap s') remove "destructive" = VBool true
         ∧ get_prop (heap s') remove "action" = VRef ra
         ∧ heap s' !! ra = Some (CFun (RemoveAction (menu_message h1 props)))).
Proof.
  intros Hcall Hobj Hneq Hk Hch.
  rewrite (menu_wrapper_guard _ _ _ _ _ _ Hcall).
  set (message := menu_message h1 props) in *.
  assert (Hm : truthy message = true).
  { destruct (is_object_inv _ _ Hobj) as (l & f & -> & _). done. }
  rewrite Hm, Hneq. cbn [andb negb].
  destruct (menu_children_truthy _ _ Hch) as (lm & mf & lp & pf
    & -> & Hlm & Hmf & Hlp & Hpf).
  assert (Hlmlen : lm < List.length h1) by by eapply lookup_lt_Some.
  assert (Hlplen : lp < List.length h1) by by eapply lookup_lt_Some.
  set (n := List.length h1) in *.
  set (label := if truthy (edit_lookup (messageEdits s) k)
                then str "Edit Local Copy" else str "Edit Locally").
  set (E := CObj (editButton_fields host label (VRef n))).
  set (h2 := h1 ++ [CFun (EditAction message); E]).
  unfold mbind, M_bind, mret, M_ret.
  rewrite (make_editButton_run host message k (set_heap h1 s))
    by (cbn [heap set_heap]; exact Hk).
  cbn [heap set_heap messageEdits]. fold n label E h2.
  rewrite set_heap_set_heap.
  assert (Hk2 : message_key h2 message = Some k)
    by (subst h2; by rewrite message_key_app).
  rewrite (make_removeButton_run host message k (set_heap h2 s) Hk2).
  cbn [heap set_heap messageEdits].
  assert (Hlen2 : List.length h2 = S (S n)).
  { subst h2. rewrite length_app. cbn [List.length]. lia. }
  assert (HA : h2 !! n = Some (CFun (EditAction message))).
  { subst h2. by rewrite list_lookup_middle. }
  assert (HE : h2 !! S n = Some E).
  { subst h2. rewrite lookup_app_r by lia.
    by replace (S n - List.length h1) with 1 by lia. }
  assert (Hch2 : menu_children h2 (VRef lm) = menu_children h1 (VRef lm))
    by (subst h2; by apply menu_children_app).
  assert (Hcl2 : child_list h2 (menu_children h1 (VRef lm))
                 = child_list h1 (menu_children h1 (VRef lm))).
  { subst h2. apply child_list_app. intros c Hc.
    repeat (apply elem_of_cons in Hc as [->|Hc]; [done|]).
    by apply elem_of_nil in Hc. }
  destruct (editButton_field host label (VRef n)) as (Fid & Ficon & Fact).
  destruct (truthy (edit_lookup (messageEdits s) k)) eqn:Ht.
  - set (R := CObj (removeButton_fields host (VRef (List.length h2)))).
    set (h3 := h2 ++ [CFun (RemoveAction message); R]).
    assert (HA3 : h3 !! n = Some (CFun (EditAction message))).
    { subst h3. rewrite lookup_app_l by lia. done. }
    assert (HE3 : h3 !! S n = Some E).
    { subst h3. rewrite lookup_app_l by lia. done. }
    assert (HRA3 : h3 !! List.length h2 = Some (CFun (RemoveAction message))).
    { subst h3. by rewrite list_lookup_middle. }
    assert (HR3 : h3 !! S (List.length h2) = Some R).
    { subst h3. rewrite lookup_app_r by lia.
      by replace (S (List.length h2) - List.length h2) with 1 by lia. }
    assert (Hch3 : menu_children h3 (VRef lm) = menu_children h1 (VRef lm)).
    { subst h3. rewrite menu_children_app; [done|]. by rewrite Hch2. }
    assert (Hcl3 : child_list h3 (menu_children h1 (VRef lm))
                   = child_list h1 (menu_children h1 (VRef lm))).
    { rewrite <- Hcl2. subst h3. apply child_list_app. intros c Hc.
      repeat (apply elem_of_cons in Hc as [->|Hc]; [done|]).
      by apply elem_of_nil in Hc. }
    destruct (append_buttons_run (VRef lm) (VRef (S n))
                (VRef (S (List.length h2))) (set_heap h3 (set_heap h2 s)))
      as (s' & lp' & pf' & c & Hrun & Hp' & Hlp' & _ & Hc1 & Hc2 & Hfr & _).
    { cbn [heap set_heap]. by rewrite Hch3. }
    cbn [heap set_heap] in *. rewrite Hrun.
    assert (lp' = lp) as ->.
    { revert Hp'. rewrite opt_prop_ref. subst h3 h2.
      rewrite <- app_assoc, get_prop_app by done.
      rewrite (get_prop_obj _ _ _ _ _ Hlm Hmf). congruence. }
    destruct (Hfr _ _ HE3) as [HE'|[?|[a ?]]]; [|lia|done].
    destruct (Hfr _ _ HA3) as [HA'|[?|[a ?]]]; [|lia|done].
    destruct (Hfr _ _ HR3) as [HR'|[?|[a ?]]]; [|lia|done].
    destruct (Hfr _ _ HRA3) as [HRA'|[?|[a ?]]]; [|lia|done].
    destruct (removeButton_field host (VRef (List.length h2)))
      as (Rid & Ricon & Rdes & Ract).
    exists s', c, (VRef (S n)), (VRef (S (List.length h2))), n.
    split; [done|]. split; [done|].
    split; [by rewrite Hc2, Hch3, Hcl3|].
    split; [by apply (get_prop_obj _ _ _ _ _ HE')|].
    split; [by apply (get_prop_obj _ _ _ _ _ HE')|].
    split; [by apply (get_prop_obj _ _ _ _ _ HE')|].
    split; [done|]. intros _. exists (List.length h2).
    split; [by apply (get_prop_obj _ _ _ _ _ HR')|].
    split; [by apply (get_prop_obj _ _ _ _ _ HR')|].
    split; [by apply (get_prop_obj _ _ _ _ _ HR')|].
    split; [by apply (get_prop_obj _ _ _ _ _ HR')|]. done.
  - destruct (append_buttons_run (VRef lm) (VRef (S n)) VNull (set_heap h2 s))
      as (s' & lp' & pf' & c & Hrun & Hp' & Hlp' & _ & Hc1 & Hc2 & Hfr & _).
    { cbn [heap set_heap]. by rewrite Hch2. }
    cbn [heap set_heap] in *. rewrite Hrun.
    assert (lp' = lp) as ->.
    { revert Hp'. rewrite opt_prop_ref. subst h2.
      rewrite get_prop_app by done.
      rewrite (get_prop_obj _ _ _ _ _ Hlm Hmf). congruence. }
    destruct (Hfr _ _ HE) as [HE'|[?|[a ?]]]; [|lia|done].
    destruct (Hfr _ _ HA) as [HA'|[?|[a ?]]]; [|lia|done].
    exists s', c, (VRef (S n)), VNull, n.
    split; [done|]. split; [done|].
    split; [by rewrite Hc2, Hch2, Hcl2|].
    split; [by apply (get_prop_obj _ _ _ _ _ HE')|].
    split; [by apply (get_prop_obj _ _ _ _ _ HE')|].
    split; [by apply (get_prop_obj _ _ _ _ _ HE')|].
    split; [done|]. discriminate.
Qed.

Lemma menu_actions_wired_witness :
  apply_host demo_host (VRef 7) [VRef 1] (heap demo_edited)
    = HostReturn (VRef 4) demo_heap
  ∧ truthy (edit_lookup (messageEdits demo_edited) (str "m1")) = true
  ∧ ∃ s' c edit remove ea,
      menu_wrapper demo_host (VRef 7) (VRef 1) demo_edited = Ok (VRef 4) s'
      ∧ menu_children (heap s') (VRef 4) = VRef c
      ∧ heap s' !! c
        = Some (CArr (child_list demo_heap (menu_children demo_heap (VRef 4))
                      ++ edit :: (if truthy (edit_lookup (messageEdits demo_edited)
                                                         (str "m1"))
                                  then [remove] else [])))
      ∧ get_prop (heap s') edit "id" = VStr (str "edit-locally")
      ∧ get_prop (heap s') edit "icon" = findByName demo_host (str "PencilIcon")
      ∧ get_prop (heap s') edit "action" = VRef ea
      ∧ heap s' !! ea = Some (CFun (EditAction (menu_message demo_heap (VRef 1))))
      ∧ (truthy (edit_lookup (messageEdits demo_edited) (str "m1")) = true →
         ∃ ra,
           get_prop (heap s') remove "id" = VStr (str "remove-local-edit")
           ∧ get_prop (heap s') remove "icon"
             = findByName demo_host (str "TrashIcon")
           ∧ get_prop (heap s') remove "destructive" = VBool true
           ∧ get_prop (heap s') remove "action" = VRef ra
           ∧ heap s' !! ra
             = Some (CFun (RemoveAction (menu_message demo_heap (VRef 1))))).
Proof.
  split; [reflexivity|]. split; [reflexivity|].
  apply (menu_actions_wired demo_host (VRef 7) (VRef 1) demo_edited (VRef 4)
           demo_heap (str "m1")); reflexivity.
Defined.
